(** * The to-do list backend (src/backend/index.js)

    A shallow embedding of the six Express route handlers of the task
    service and of the part of Mongoose/MongoDB they call, followed by the
    properties of the task lifecycle and query contract.

    The handlers are embedded line by line.  The store they talk to is a
    library, not code of the repository; it is modelled here after the
    documented behaviour of Mongoose (version 6 and later, with the ObjectId
    of bson 5):
    - a collection is the list of its documents in insertion order, with the
      unique index on [_id] that MongoDB always maintains;
    - [new Task(data)] casts the fields it is given, applies the schema
      defaults and [save()] validates before it inserts;
    - [findByIdAndUpdate] casts the id and the update, drops the keys whose
      value is [undefined], runs no validators, and with [{new: true}]
      returns the document after the update, or [null];
    - [findByIdAndDelete] returns the removed document, or [null].
    A request body is the JSON object that [express.json()] parsed, or
    [undefined] when the request has no JSON body, as Express 5 leaves it.
    The clock ([Date.now]), the ObjectId generator and the reachability of
    the database are inputs of every request ([Env]).  The conversions that
    JavaScript itself performs when Mongoose casts a value that is neither a
    string nor [null] are left abstract ([JsRuntime]). *)

From Stdlib Require Import ZArith Lia Ascii String Sorted.
From stdpp Require Import base strings list gmap pretty.

Local Open Scope Z_scope.

(** ** JSON request bodies *)

#[local] Unset Elimination Schemes.
Inductive json : Type :=
  | JNull
  | JBool (b : bool)
  | JNum (n : Z)              (* the integers are all the handlers tell apart *)
  | JStr (s : string)
  | JArr (l : list json)
  | JObj (l : list (string * json)).
#[local] Set Elimination Schemes.

(** A JSON object as [express.json()] parses it; a key that is not there
    reads as [undefined], which is [None] below. *)
Abbreviation Body := (gmap string json).

(** [req.body]: the parsed object, or [undefined] ([None]), which is what
    the body parser of Express 5 leaves when the request has no JSON body.
    (Express 4 leaves the empty object, [Some ∅].) *)
Abbreviation ReqBody := (option (gmap string json)).

(** What the JavaScript runtime does with a value it has to turn into a date
    or a string: [Date_of v] is [new Date(v).valueOf()], in milliseconds, or
    [None] for an invalid date; [String_of v] is [v.toString()] where
    Mongoose's string cast accepts [v], and [None] where it refuses. *)
Class JsRuntime := {
  Date_of : json → option Z;
  String_of : json → option string
}.

(** ** Exceptions and fallible computations *)

Inductive exn : Type :=
  | ValidationError
  | CastError
  | MongoServerError        (* E11000 duplicate key *)
  | MongoNetworkError       (* the query could not be executed *)
  | TypeError               (* a property is read from undefined *)
  | ReferenceError (ident : string).

Inductive Result (A : Type) : Type :=
  | Ok (a : A)
  | Throw (e : exn).
Arguments Ok {A} a.
Arguments Throw {A} e.

#[global] Instance Result_bind : MBind Result := λ A B k r,
  match r with
  | Ok a => k a
  | Throw e => Throw e
  end.

Definition try_catch {A} (block : Result A) (handler : exn → Result A) : Result A :=
  match block with
  | Ok a => Ok a
  | Throw e => handler e
  end.

(** ** Object ids *)

(** A 12-byte ObjectId, as the number its 24 hexadecimal digits denote. *)
Abbreviation ObjectId := N (only parsing).

Definition hex_digit (c : ascii) : option N :=
  let n := N_of_ascii c in
  if ((48 <=? n) && (n <=? 57))%N then Some (n - 48)%N
  else if ((97 <=? n) && (n <=? 102))%N then Some (n - 87)%N
  else if ((65 <=? n) && (n <=? 70))%N then Some (n - 55)%N
  else None.

Fixpoint hex_value (acc : N) (s : string) : option N :=
  match s with
  | EmptyString => Some acc
  | String c s' =>
      match hex_digit c with
      | Some d => hex_value (16 * acc + d)%N s'
      | None => None
      end
  end.

(** The cast of a route parameter to an ObjectId: a string of 24 hexadecimal
    digits, anything else is a [CastError].  (Before version 5, bson also
    took a string of exactly 12 characters as the 12 bytes.) *)
Definition castObjectId (id : string) : option ObjectId :=
  if Nat.eqb (String.length id) 24 then hex_value 0%N id else None.

(** ** The task schema (index.js, lines 39-45) *)

(** A stored document.  [None] in a field is [null]: the update path runs no
    validators, so a stored field can be [null]; [dateCreated] is written by
    the schema default only. *)
Record Task : Type := mkTask {
  _id : ObjectId;
  title : option string;
  description : option string;
  dueDate : option Z;
  dateCreated : Z;
  completed : option bool
}.

(** The collection, in insertion order. *)
Abbreviation Store := (list Task).

Record Env : Type := mkEnv {
  now : Z;               (* Date.now() *)
  freshId : ObjectId;    (* new ObjectId() *)
  storeUp : bool         (* the database executes the query *)
}.

(** ** Schema casts *)

Section Casts.
Context `{RT : JsRuntime}.

(** SchemaString: [null] stays [null], a string is itself, the rest goes
    through [toString] or is refused. *)
Definition castString (v : json) : Result (option string) :=
  match v with
  | JNull => Ok None
  | JStr s => Ok (Some s)
  | _ => match String_of v with
         | Some s => Ok (Some s)
         | None => Throw CastError
         end
  end.

(** SchemaDate: [null] and the empty string become [null], a boolean is
    refused, the rest goes through [new Date]. *)
Definition castDate (v : json) : Result (option Z) :=
  match v with
  | JNull => Ok None
  | JStr EmptyString => Ok None
  | JBool _ => Throw CastError
  | _ => match Date_of v with
         | Some ms => Ok (Some ms)
         | None => Throw CastError
         end
  end.

(** SchemaBoolean: the two sets [convertToTrue] and [convertToFalse]. *)
Definition castBoolean (v : json) : Result (option bool) :=
  match v with
  | JNull => Ok None
  | JBool b => Ok (Some b)
  | JNum 1 => Ok (Some true)
  | JNum 0 => Ok (Some false)
  | JStr s =>
      if bool_decide (s ∈ ["true"; "1"; "yes"]) then Ok (Some true)
      else if bool_decide (s ∈ ["false"; "0"; "no"]) then Ok (Some false)
      else Throw CastError
  | _ => Throw CastError
  end.

(** A [required] string path at [save()]: the cast must succeed and give a
    string that is not empty. *)
Definition required_string (field : option json) : Result string :=
  match field with
  | None => Throw ValidationError
  | Some v =>
      match castString v with
      | Ok (Some s) => if bool_decide (s = "") then Throw ValidationError else Ok s
      | _ => Throw ValidationError
      end
  end.

(** A [required] date path at [save()]. *)
Definition required_date (field : option json) : Result Z :=
  match field with
  | None => Throw ValidationError
  | Some v =>
      match castDate v with
      | Ok (Some ms) => Ok ms
      | _ => Throw ValidationError
      end
  end.

(** One key of an update document: [undefined] is dropped, a value is
    cast. *)
Definition cast_path {A} (c : json → Result (option A)) (field : option json)
  : Result (option (option A)) :=
  match field with
  | None => Ok None
  | Some v => x ← c v; Ok (Some x)
  end.
End Casts.

(** ** The collection *)

Fixpoint findById (oid : ObjectId) (st : Store) : option Task :=
  match st with
  | [] => None
  | t :: st' => if N.eqb (_id t) oid then Some t else findById oid st'
  end.

(** Replaces the first document whose [_id] is [oid]. *)
Fixpoint replaceById (oid : ObjectId) (t' : Task) (st : Store) : Store :=
  match st with
  | [] => []
  | t :: st' => if N.eqb (_id t) oid then t' :: st' else t :: replaceById oid t' st'
  end.

(** Removes the first document whose [_id] is [oid]. *)
Fixpoint removeById (oid : ObjectId) (st : Store) : Store :=
  match st with
  | [] => []
  | t :: st' => if N.eqb (_id t) oid then st' else t :: removeById oid st'
  end.

(** The order of BSON values on a date field: [null] sorts before every
    date. *)
Definition date_le (a b : option Z) : Prop :=
  match a, b with
  | None, _ => True
  | Some _, None => False
  | Some x, Some y => x ≤ y
  end.

Definition dueDate_le (a b : Task) : Prop := date_le (dueDate a) (dueDate b).
Definition dateCreated_le (a b : Task) : Prop := dateCreated a ≤ dateCreated b.

#[global] Instance date_le_dec a b : Decision (date_le a b) :=
  match a, b with
  | None, _ => left I
  | Some _, None => right (λ H, H)
  | Some x, Some y => Z_le_dec x y
  end.
#[global] Instance dueDate_le_dec a b : Decision (dueDate_le a b) :=
  date_le_dec (dueDate a) (dueDate b).
#[global] Instance dateCreated_le_dec a b : Decision (dateCreated_le a b) :=
  Z_le_dec (dateCreated a) (dateCreated b).

(** The sort document handed to [Query.sort]. *)
Inductive SortOption : Type :=
  | NoSort            (* {} *)
  | ByDueDate         (* { dueDate: 1 } *)
  | ByDateCreated.    (* { dateCreated: 1 } *)

(** An ascending scan of the index on a field (lines 48-49): documents come
    in the order of their keys, and documents with equal keys in the order
    in which they were inserted.  On the collection in insertion order this
    is a stable sort. *)
Section IndexScan.
Context {A : Type} (le : A → A → Prop) `{∀ x y, Decision (le x y)}.

Fixpoint insert_by (x : A) (l : list A) : list A :=
  match l with
  | [] => [x]
  | y :: l' => if decide (le x y) then x :: y :: l' else y :: insert_by x l'
  end.

Definition sort_by (l : list A) : list A := foldr insert_by [] l.
End IndexScan.

Definition sort_docs (o : SortOption) (st : Store) : list Task :=
  match o with
  | NoSort => st
  | ByDueDate => sort_by dueDate_le st
  | ByDateCreated => sort_by dateCreated_le st
  end.

(** What a query resolves to. *)
Inductive QueryResult : Type :=
  | QNull
  | QDoc (t : Task)
  | QDocs (l : list Task).

(** JavaScript truthiness: [null] is falsy, a document and an array, empty
    or not, are truthy. *)
Definition truthy (v : QueryResult) : bool :=
  match v with
  | QNull => false
  | QDoc _ => true
  | QDocs _ => true
  end.

Definition of_option (o : option Task) : QueryResult :=
  match o with
  | Some t => QDoc t
  | None => QNull
  end.

(** The [$set] that an update document casts to; [None] is a key that is not
    in the update. *)
Record Update : Type := mkUpdate {
  set_title : option (option string);
  set_description : option (option string);
  set_dueDate : option (option Z);
  set_completed : option (option bool)
}.

Definition update_is_empty (u : Update) : bool :=
  match set_title u, set_description u, set_dueDate u, set_completed u with
  | None, None, None, None => true
  | _, _, _, _ => false
  end.

Definition apply_update (u : Update) (t : Task) : Task :=
  {| _id := _id t;
     title := default (title t) (set_title u);
     description := default (description t) (set_description u);
     dueDate := default (dueDate t) (set_dueDate u);
     dateCreated := dateCreated t;
     completed := default (completed t) (set_completed u) |}.

(** [Task.find({}).sort(sortOption)] *)
Definition Task_find_sort (st : Store) (env : Env) (o : SortOption) : Result QueryResult :=
  if storeUp env then Ok (QDocs (sort_docs o st)) else Throw MongoNetworkError.

(** The insert behind [save()]. *)
Definition insertOne (st : Store) (env : Env) (doc : Task) : Result (Store * QueryResult) :=
  if negb (storeUp env) then Throw MongoNetworkError
  else match findById (_id doc) st with
       | Some _ => Throw MongoServerError
       | None => Ok (st ++ [doc], QDoc doc)
       end.

(** [Task.findByIdAndUpdate(id, update, { new: true })] *)
Definition Task_findByIdAndUpdate (st : Store) (env : Env) (id : string)
    (update : Result Update) : Result (Store * QueryResult) :=
  match castObjectId id with
  | None => Throw CastError
  | Some oid =>
      u ← update;
      if negb (storeUp env) then Throw MongoNetworkError
      else if update_is_empty u then Ok (st, of_option (findById oid st))
      else match findById oid st with
           | None => Ok (st, QNull)
           | Some t =>
               let t' := apply_update u t in
               Ok (replaceById oid t' st, QDoc t')
           end
  end.

(** [Task.findByIdAndDelete(id)] *)
Definition Task_findByIdAndDelete (st : Store) (env : Env) (id : string)
    : Result (Store * QueryResult) :=
  match castObjectId id with
  | None => Throw CastError
  | Some oid =>
      if negb (storeUp env) then Throw MongoNetworkError
      else match findById oid st with
           | None => Ok (st, QNull)
           | Some t => Ok (removeById oid st, QDoc t)
           end
  end.

(** ** Responses *)

Inductive ResBody : Type :=
  | Json_value (v : QueryResult)                                (* res.json(tasks) *)
  | Json_task_message (task : QueryResult) (message : string)   (* res.json({ task, message }) *)
  | Json_message (message : string).                            (* res.json({ message }) *)

Record Response : Type := mkResponse {
  status : Z;
  body : ResBody
}.

(** [res.json(b)] answers 200, [res.status(c).json(b)] answers [c]. *)
Definition res_json (b : ResBody) : Response := mkResponse 200 b.
Definition res_status_json (c : Z) (b : ResBody) : Response := mkResponse c b.

(** How a call of an [async] handler ends: it has written a response, or its
    promise rejects with an exception that nothing in the handler caught,
    and the handler has written none. *)
Inductive Outcome : Type :=
  | Responded (r : Response)
  | Rejected (e : exn).

Definition settle (st : Store) (r : Result (Store * Response)) : Store * Outcome :=
  match r with
  | Ok (st', resp) => (st', Responded resp)
  | Throw e => (st, Rejected e)
  end.

(** The names bound at module level (lines 2-54) and the globals of Node
    that the file uses. *)
Definition module_scope : list string :=
  ["require"; "console"; "process"; "express"; "cors"; "mongoose"; "app";
   "port"; "taskSchema"; "Task"].

(** The names a [catch (param) { ... }] block of a handler can read: the
    [const]s of the [try] block are out of scope there. *)
Definition catch_scope (param : string) : list string :=
  param :: "req" :: "res" :: module_scope.

(** Reading a name that is not bound throws a [ReferenceError]. *)
Definition eval_ident (scope : list string) (x : string) : Result unit :=
  if bool_decide (x ∈ scope) then Ok () else Throw (ReferenceError x).

(** The body that all six [catch] blocks share:
    [console.error("Error:", logged); res.status(500).json({ message })]. *)
Definition catch_block (param logged message : string) : Result Response :=
  _ ← eval_ident (catch_scope param) logged;
  Ok (res_status_json 500 (Json_message message)).

(** Destructuring [const { ... } = req.body]: reading the keys of
    [undefined] throws a [TypeError]. *)
Definition destructure (body_ : ReqBody) : Result Body :=
  match body_ with
  | Some b => Ok b
  | None => Throw TypeError
  end.

(** ** The route handlers *)

Section Handlers.
Context `{RT : JsRuntime}.

(** [new Task({ title, description, dueDate })] followed by [save()]
    (lines 103-105): the three paths the handler passes are cast and
    validated, [dateCreated] and [completed] take their schema defaults,
    [_id] is generated. *)
Definition Task_save (st : Store) (env : Env)
    (title_ description_ dueDate_ : option json) : Result (Store * QueryResult) :=
  t ← required_string title_;
  d ← required_string description_;
  due ← required_date dueDate_;
  insertOne st env
    {| _id := freshId env;
       title := Some t;
       description := Some d;
       dueDate := Some due;
       dateCreated := now env;
       completed := Some false |}.

(** The update document [{ completed }] (lines 122 and 145). *)
Definition update_completed (completed_ : option json) : Result Update :=
  c ← cast_path castBoolean completed_;
  Ok (mkUpdate None None None c).

(** The update document [{ title, description, dueDate }] (line 184). *)
Definition update_details (title_ description_ dueDate_ : option json) : Result Update :=
  t ← cast_path castString title_;
  d ← cast_path castString description_;
  due ← cast_path castDate dueDate_;
  Ok (mkUpdate t d due None).

(** The choice of the sort document from [req.query.sortBy] (lines 77-83);
    [None] is a request without the parameter. *)
Definition sortOption_of (sortBy : option string) : SortOption :=
  if bool_decide (sortBy = Some "dueDate") then ByDueDate
  else if bool_decide (sortBy = Some "dateCreated") then ByDateCreated
  else NoSort.

(** GET /api/tasks (lines 74-96) *)
Definition get_tasks (st : Store) (env : Env) (sortBy : option string) : Store * Outcome :=
  settle st (try_catch
    (let sortOption := sortOption_of sortBy in
     tasks ← Task_find_sort st env sortOption;
     if negb (truthy tasks)
     then Ok (st, res_status_json 404 (Json_message "Tasks not found"))
     else Ok (st, res_json (Json_value tasks)))
    (λ err,
       resp ← catch_block "err" "err" "Error grabbing tasks!";
       Ok (st, resp))).

(** POST /api/tasks/todo (lines 99-112) *)
Definition post_todo (st : Store) (env : Env) (body_ : ReqBody) : Store * Outcome :=
  settle st (try_catch
    (b ← destructure body_;
     let title_ := b !! "title" in
     let description_ := b !! "description" in
     let dueDate_ := b !! "dueDate" in
     '(st', newTask) ← Task_save st env title_ description_ dueDate_;
     Ok (st', res_json (Json_task_message newTask "Task created successfully")))
    (λ error,
       resp ← catch_block "error" "err" "Error creating tasks!";
       Ok (st, resp))).

(** PATCH /api/tasks/complete/:id (lines 115-135) *)
Definition patch_complete (st : Store) (env : Env) (id : string) (body_ : ReqBody)
    : Store * Outcome :=
  settle st (try_catch
    (b ← destructure body_;
     let completed_ := b !! "completed" in
     let taskId := id in
     '(st', completedTask) ←
        Task_findByIdAndUpdate st env taskId (update_completed completed_);
     if negb (truthy completedTask)
     then Ok (st', res_status_json 404 (Json_message "Task not found"))
     else Ok (st', res_json (Json_task_message completedTask "Task set to 'complete.")))
    (λ error,
       resp ← catch_block "error" "error" "Error completing the task!";
       Ok (st, resp))).

(** PATCH /api/tasks/notComplete/:id (lines 138-158) *)
Definition patch_notComplete (st : Store) (env : Env) (id : string) (body_ : ReqBody)
    : Store * Outcome :=
  settle st (try_catch
    (b ← destructure body_;
     let completed_ := b !! "completed" in
     let taskId := id in
     '(st', taskNotComplete) ←
        Task_findByIdAndUpdate st env taskId (update_completed completed_);
     if negb (truthy taskNotComplete)
     then Ok (st', res_status_json 404 (Json_message "Task not found"))
     else Ok (st', res_json (Json_task_message taskNotComplete "Task set to ' not complete.")))
    (λ error,
       resp ← catch_block "error" "error" "Error setting task to not complete!";
       Ok (st, resp))).

(** DELETE /api/tasks/delete/:id (lines 161-176) *)
Definition delete_task (st : Store) (env : Env) (id : string) : Store * Outcome :=
  settle st (try_catch
    (let taskId := id in
     '(st', deletedTask) ← Task_findByIdAndDelete st env taskId;
     if negb (truthy deletedTask)
     then Ok (st', res_status_json 404 (Json_message "Task not found!"))
     else Ok (st', res_json (Json_task_message deletedTask "Task deleted successfully!")))
    (λ error,
       resp ← catch_block "error" "error" "Error deleting the task!";
       Ok (st, resp))).

(** PUT /api/tasks/update/:id (lines 179-198) *)
Definition put_update (st : Store) (env : Env) (id : string) (body_ : ReqBody)
    : Store * Outcome :=
  settle st (try_catch
    (let taskId := id in
     b ← destructure body_;
     let title_ := b !! "title" in
     let description_ := b !! "description" in
     let dueDate_ := b !! "dueDate" in
     '(st', updatedTask) ←
        Task_findByIdAndUpdate st env taskId (update_details title_ description_ dueDate_);
     if negb (truthy updatedTask)
     then Ok (st', res_status_json 404 (Json_message "Task not found!"))
     else Ok (st', res_json (Json_task_message updatedTask "Task updated successfully!")))
    (λ error,
       resp ← catch_block "error" "error" "Error updating the task!";
       Ok (st, resp))).

(** The requests of the HTTP interface, and the service as one transition
    function. *)
Inductive Request : Type :=
  | GetTasks (sortBy : option string)
  | PostTodo (body_ : ReqBody)
  | PatchComplete (id : string) (body_ : ReqBody)
  | PatchNotComplete (id : string) (body_ : ReqBody)
  | DeleteTask (id : string)
  | PutUpdate (id : string) (body_ : ReqBody).

Definition handle (st : Store) (env : Env) (r : Request) : Store * Outcome :=
  match r with
  | GetTasks sortBy => get_tasks st env sortBy
  | PostTodo b => post_todo st env b
  | PatchComplete id b => patch_complete st env id b
  | PatchNotComplete id b => patch_notComplete st env id b
  | DeleteTask id => delete_task st env id
  | PutUpdate id b => put_update st env id b
  end.

(** The store after a sequence of requests, each served in its own
    environment. *)
Fixpoint run (st : Store) (rs : list (Env * Request)) : Store :=
  match rs with
  | [] => st
  | (env, r) :: rs' => run (handle st env r).1 rs'
  end.
End Handlers.

(** ** Notions used in the statements *)

Definition ids (st : Store) : list ObjectId := _id <$> st.

(** The unique index on [_id]. *)
Definition store_wf (st : Store) : Prop := NoDup (ids st).

(** A stored task carries the id string [id] when [id] casts to its
    [_id]. *)
Definition carries (st : Store) (id : string) : Prop :=
  ∃ t, t ∈ st ∧ castObjectId id = Some (_id t).

(** A request field that is absent ([undefined]), [null] or the empty
    string. *)
Definition absent_or_empty (field : option json) : Prop :=
  field = None ∨ field = Some JNull ∨ field = Some (JStr "").

(** The document that a successful create stores. *)
Definition created_task (env : Env) (t d : string) (due : Z) : Task :=
  {| _id := freshId env;
     title := Some t;
     description := Some d;
     dueDate := Some due;
     dateCreated := now env;
     completed := Some false |}.

(** What a by-id handler answers, by cases on what its query did: the task
    with the handler's message, 404 for [null], 500 for an exception.  The
    lemmas [patch_complete_req], [patch_notComplete_req], [put_update_req]
    and [delete_task_eq] show that the four handlers are this function. *)
Definition answer (found_msg missing_msg failed_msg : string) (st : Store)
    (r : Result (Store * QueryResult)) : Store * Outcome :=
  match r with
  | Ok (st', QNull) => (st', Responded (res_status_json 404 (Json_message missing_msg)))
  | Ok (st', v) => (st', Responded (res_json (Json_task_message v found_msg)))
  | Throw _ => (st, Responded (res_status_json 500 (Json_message failed_msg)))
  end.

Definition status_of (o : Outcome) : option Z :=
  match o with
  | Responded r => Some (status r)
  | Rejected _ => None
  end.

Definition task_of (o : Outcome) : option QueryResult :=
  match o with
  | Responded r =>
      match body r with
      | Json_task_message v _ => Some v
      | _ => None
      end
  | Rejected _ => None
  end.

Definition Not_found (message : string) : Outcome :=
  Responded (res_status_json 404 (Json_message message)).

Definition Failed (message : string) : Outcome :=
  Responded (res_status_json 500 (Json_message message)).

(** The store after [$set u] on the task with id [oid], if there is one. *)
Definition updateById (oid : ObjectId) (u : Update) (st : Store) : Store :=
  match findById oid st with
  | Some t => replaceById oid (apply_update u t) st
  | None => st
  end.

(** The update document that a completion request and an update request
    ask for; a request without a body asks for none, its handler throws
    before it builds one. *)
Definition completion_update (body_ : ReqBody) : Result Update :=
  b ← destructure body_; update_completed (b !! "completed").

Definition details_update `{RT : JsRuntime} (body_ : ReqBody) : Result Update :=
  b ← destructure body_;
  update_details (b !! "title") (b !! "description") (b !! "dueDate").

(** The generator does not issue [oid] to a create request of [rs]. *)
Definition never_reissues (oid : ObjectId) (rs : list (Env * Request)) : Prop :=
  ∀ env b, (env, PostTodo b) ∈ rs → freshId env ≠ oid.

(** ** A runtime to compute with

    The part of JavaScript's conversions that the examples below go
    through: calendar dates written [YYYY-MM-DD] (read as midnight UTC),
    numbers as milliseconds, and the decimal notation of integers. *)

Definition dec_digit (c : ascii) : option Z :=
  let n := Z.of_N (N_of_ascii c) in
  if (48 <=? n) && (n <=? 57) then Some (n - 48) else None.

Fixpoint dec_value (acc : Z) (s : string) : option Z :=
  match s with
  | EmptyString => Some acc
  | String c s' =>
      match dec_digit c with
      | Some d => dec_value (10 * acc + d) s'
      | None => None
      end
  end.

(** Days from 1970-01-01 to the given day of the proleptic Gregorian
    calendar. *)
Definition days_from_civil (y m d : Z) : Z :=
  let y' := if m <=? 2 then y - 1 else y in
  let era := y' / 400 in
  let yoe := y' - era * 400 in
  let mp := (m + 9) mod 12 in
  let doy := (153 * mp + 2) / 5 + d - 1 in
  let doe := yoe * 365 + yoe / 4 - yoe / 100 + doy in
  era * 146097 + doe - 719468.

Definition iso_date (s : string) : option Z :=
  if negb (Nat.eqb (String.length s) 10) then None
  else if negb (String.eqb (substring 4 1 s) "-" && String.eqb (substring 7 1 s) "-") then None
  else
    y ← dec_value 0 (substring 0 4 s);
    m ← dec_value 0 (substring 5 2 s);
    d ← dec_value 0 (substring 8 2 s);
    if (1 <=? m) && (m <=? 12) && (1 <=? d) && (d <=? 31)
    then Some (days_from_civil y m d * 86400000)
    else None.

Definition sample_runtime : JsRuntime :=
  {| Date_of v :=
       match v with
       | JNum n => if (Z.abs n <=? 8640000000000000) then Some n else None
       | JStr s => iso_date s
       | _ => None
       end;
     String_of v :=
       match v with
       | JBool true => Some "true"
       | JBool false => Some "false"
       | JNum n => Some (pretty n)
       | _ => None
       end |}.

(** The values the examples use. *)
Definition id_A : string := "000000000000000000000001".
Definition id_new : string := "000000000000000000000002".

Definition task_A : Task :=
  {| _id := 1; title := Some "A"; description := Some "B";
     dueDate := Some 1735689600000; dateCreated := 1000; completed := Some false |}.
Definition task_new : Task :=
  {| _id := 2; title := Some "A"; description := Some "B";
     dueDate := Some 1735689600000; dateCreated := 2000; completed := Some false |}.
Definition task_third : Task :=
  {| _id := 3; title := Some "A"; description := Some "B";
     dueDate := Some 1735689600000; dateCreated := 3000; completed := Some false |}.
Definition task_A_done : Task :=
  {| _id := 1; title := Some "A"; description := Some "B";
     dueDate := Some 1735689600000; dateCreated := 1000; completed := Some true |}.

Definition env_first : Env := {| now := 1000; freshId := 1; storeUp := true |}.
Definition env_new : Env := {| now := 2000; freshId := 2; storeUp := true |}.
Definition env_third : Env := {| now := 3000; freshId := 3; storeUp := true |}.
Definition env_up : Env := {| now := 5000; freshId := 9; storeUp := true |}.

Definition body_ABC : Body :=
  {[ "title" := JStr "A"; "description" := JStr "B"; "dueDate" := JStr "2025-01-01" ]}.
Definition body_ABC_extra : Body :=
  <[ "completed" := JBool true ]> (<[ "_id" := JStr id_A ]>
    (<[ "dateCreated" := JStr "1999-12-31" ]> body_ABC)).
Definition body_XYZ : Body :=
  {[ "title" := JStr "X"; "description" := JStr "Y"; "dueDate" := JStr "2025-02-01" ]}.
Definition body_done : Body := {[ "completed" := JBool true ]}.

Definition task_early : Task :=
  {| _id := 4; title := Some "E"; description := Some "F";
     dueDate := Some 86400000; dateCreated := 4000; completed := Some true |}.
Definition task_undated : Task :=
  {| _id := 5; title := Some "G"; description := None;
     dueDate := None; dateCreated := 4000; completed := Some false |}.

Definition env_down : Env := {| now := 6000; freshId := 9; storeUp := false |}.
Definition body_title_only : Body := {[ "title" := JStr "Z" ]}.
Definition body_blank : Body :=
  {[ "title" := JStr ""; "description" := JNull; "dueDate" := JStr "" ]}.

(* ================================================================== *)
(** * Properties *)

(** ** The collection: lookups, identifiers, the uniqueness invariant *)

Lemma findById_Some oid st t :
  findById oid st = Some t → t ∈ st ∧ _id t = oid.
Proof.
  induction st as [|u st IH]; simpl; [done|].
  destruct (N.eqb_spec (_id u) oid) as [E|E].
  - intros [= ->]. split; [left | done].
  - intros H. destruct (IH H) as [? ?]. split; [by right | done].
Qed.

Lemma findById_None oid st :
  findById oid st = None ↔ oid ∉ ids st.
Proof.
  unfold ids. induction st as [|u st IH]; simpl.
  - split; [intros _; apply not_elem_of_nil | done].
  - rewrite not_elem_of_cons. destruct (N.eqb_spec (_id u) oid) as [E|E].
    + split; [done | intros [? _]; congruence].
    + rewrite IH. split; [intros ?; split; [congruence | done] | by intros [_ ?]].
Qed.

Lemma findById_is_Some oid st :
  is_Some (findById oid st) ↔ oid ∈ ids st.
Proof.
  destruct (findById oid st) eqn:E.
  - split; [intros _ | by eauto].
    destruct (decide (oid ∈ ids st)) as [|Hn]; [done|].
    apply findById_None in Hn. congruence.
  - split; [by intros [? ?] | intros Hin]. by apply findById_None in E.
Qed.

Lemma not_carried_findById st id oid :
  ¬ carries st id → castObjectId id = Some oid → findById oid st = None.
Proof.
  intros Hn Hc. destruct (findById oid st) as [t|] eqn:E; [|done].
  destruct (findById_Some _ _ _ E) as [Hin <-]. exfalso. apply Hn. by exists t.
Qed.

Lemma ids_replaceById oid t' st :
  _id t' = oid → ids (replaceById oid t' st) = ids st.
Proof.
  intros Ht. unfold ids. induction st as [|u st IH]; simpl; [done|].
  destruct (N.eqb_spec (_id u) oid) as [E|E]; simpl.
  - by rewrite Ht, E.
  - f_equal. apply IH.
Qed.

Lemma findById_replaceById_eq oid t' st :
  _id t' = oid → is_Some (findById oid st) →
  findById oid (replaceById oid t' st) = Some t'.
Proof.
  intros Ht. induction st as [|u st IH]; simpl; [by intros [? ?]|].
  destruct (N.eqb_spec (_id u) oid) as [E|E]; simpl.
  - intros _. by rewrite Ht, N.eqb_refl.
  - intros H. apply N.eqb_neq in E. rewrite E. by apply IH.
Qed.

Lemma findById_replaceById_ne oid oid' t' st :
  _id t' = oid → oid ≠ oid' →
  findById oid' (replaceById oid t' st) = findById oid' st.
Proof.
  intros Ht Hne. induction st as [|u st IH]; simpl; [done|].
  destruct (N.eqb_spec (_id u) oid) as [E|E]; simpl.
  - rewrite Ht. destruct (N.eqb_spec oid oid'); [done|].
    destruct (N.eqb_spec (_id u) oid'); [congruence | done].
  - destruct (N.eqb (_id u) oid'); [done | apply IH].
Qed.

Lemma removeById_Permutation oid st t :
  findById oid st = Some t → st ≡ₚ t :: removeById oid st.
Proof.
  induction st as [|u st IH]; simpl; [done|].
  destruct (N.eqb_spec (_id u) oid) as [E|E].
  - by intros [= ->].
  - intros H. rewrite (IH H) at 1. apply Permutation_swap.
Qed.

Lemma ids_removeById_sublist oid st : sublist (ids (removeById oid st)) (ids st).
Proof.
  unfold ids. induction st as [|u st IH]; simpl; [done|].
  destruct (N.eqb (_id u) oid); simpl.
  - by apply sublist_cons.
  - by apply sublist_skip.
Qed.

Lemma removeById_wf oid st : store_wf st → store_wf (removeById oid st).
Proof. unfold store_wf. intros H. eapply sublist_NoDup; [done | apply ids_removeById_sublist]. Qed.

Lemma findById_removeById_eq oid st :
  store_wf st → findById oid (removeById oid st) = None.
Proof.
  unfold store_wf, ids. induction st as [|u st IH]; simpl; [done|].
  rewrite NoDup_cons. intros [Hu Hst].
  destruct (N.eqb_spec (_id u) oid) as [E|E]; simpl.
  - apply findById_None. by rewrite <- E.
  - apply N.eqb_neq in E. rewrite E. by apply IH.
Qed.

Lemma findById_removeById_ne oid oid' st :
  oid ≠ oid' → findById oid' (removeById oid st) = findById oid' st.
Proof.
  intros Hne. induction st as [|u st IH]; simpl; [done|].
  destruct (N.eqb_spec (_id u) oid) as [E|E]; simpl.
  - destruct (N.eqb_spec (_id u) oid'); [congruence | done].
  - by rewrite IH.
Qed.

Lemma findById_elem st t :
  store_wf st → t ∈ st → findById (_id t) st = Some t.
Proof.
  unfold store_wf, ids. induction st as [|u st IH]; simpl.
  - intros _ H. by apply elem_of_nil in H.
  - rewrite NoDup_cons. intros [Hu Hst] Hin.
    apply elem_of_cons in Hin as [->|Hin]; [by rewrite N.eqb_refl|].
    destruct (N.eqb_spec (_id u) (_id t)) as [E|E]; [|by apply IH].
    exfalso. apply Hu. rewrite E. by apply list_elem_of_fmap_2.
Qed.

Lemma carries_ids st id :
  carries st id ↔ ∃ oid, castObjectId id = Some oid ∧ oid ∈ ids st.
Proof.
  unfold carries, ids. split.
  - intros (t & Hin & Hc). exists (_id t). split; [done|]. by apply list_elem_of_fmap_2.
  - intros (oid & Hc & Hin). apply list_elem_of_fmap in Hin as (t & -> & Hin). by exists t.
Qed.

Lemma insert_wf st doc :
  store_wf st → findById (_id doc) st = None → store_wf (st ++ [doc]).
Proof.
  unfold store_wf, ids. intros Hst Hn. rewrite fmap_app. simpl.
  apply NoDup_app. split_and!; [done | | apply NoDup_singleton].
  intros x Hx Hx'. apply list_elem_of_singleton in Hx'. subst x.
  by apply findById_None in Hn.
Qed.

Section Properties.
Context `{RT : JsRuntime}.

(** ** Creating a task *)

Lemma required_string_absent_or_empty field :
  absent_or_empty field → required_string field = Throw ValidationError.
Proof. by intros [->|[->| ->]]. Qed.

Lemma required_date_absent_or_empty field :
  absent_or_empty field → required_date field = Throw ValidationError.
Proof. by intros [->|[->| ->]]. Qed.

Lemma required_string_throws field e :
  required_string field = Throw e → e = ValidationError.
Proof.
  unfold required_string. destruct field as [v|]; [|congruence].
  destruct (castString v) as [[s|]|]; [|congruence..].
  case_bool_decide; congruence.
Qed.

Lemma required_date_throws field e :
  required_date field = Throw e → e = ValidationError.
Proof.
  unfold required_date. destruct field as [v|]; [|congruence].
  destruct (castDate v) as [[s|]|]; congruence.
Qed.

Lemma Task_save_Ok st env a b c st' v :
  Task_save st env a b c = Ok (st', v) ↔
  ∃ t d due,
    required_string a = Ok t ∧ required_string b = Ok d ∧ required_date c = Ok due ∧
    storeUp env = true ∧ findById (freshId env) st = None ∧
    st' = st ++ [created_task env t d due] ∧ v = QDoc (created_task env t d due).
Proof.
  unfold Task_save, insertOne, created_task. split.
  - destruct (required_string a) as [t|]; [|done].
    destruct (required_string b) as [d|]; [|done].
    destruct (required_date c) as [due|]; [|done]. simpl.
    destruct (storeUp env); [|done]. simpl.
    destruct (findById (freshId env) st) eqn:E; [done|].
    intros [= <- <-]. by exists t, d, due.
  - intros (t & d & due & -> & -> & -> & -> & Hf & -> & ->). simpl. by rewrite Hf.
Qed.

(** A validation failure stores nothing. *)
Lemma Task_save_invalid st env a b c :
  absent_or_empty a ∨ absent_or_empty b ∨ absent_or_empty c →
  Task_save st env a b c = Throw ValidationError.
Proof.
  unfold Task_save. intros [H|[H|H]].
  - by rewrite (required_string_absent_or_empty _ H).
  - rewrite (required_string_absent_or_empty _ H).
    destruct (required_string a) as [?|e] eqn:E; [done|].
    by rewrite (required_string_throws _ _ E).
  - rewrite (required_date_absent_or_empty _ H).
    destruct (required_string a) as [?|e] eqn:E;
      [|by rewrite (required_string_throws _ _ E)].
    destruct (required_string b) as [?|e] eqn:E';
      [done | by rewrite (required_string_throws _ _ E')].
Qed.

(** The [catch] block of the create handler reads [err], which is not bound
    there: whatever [save()] throws, the handler ends in a
    [ReferenceError]. *)
Lemma post_todo_eq st env (b : Body) :
  post_todo st env (Some b) =
  match Task_save st env (b !! "title") (b !! "description") (b !! "dueDate") with
  | Ok (st', v) =>
      (st', Responded (res_json (Json_task_message v "Task created successfully")))
  | Throw _ => (st, Rejected (ReferenceError "err"))
  end.
Proof. unfold post_todo. simpl. by destruct Task_save as [[st' v]|e]. Qed.

(** Without a body the destructuring at line 101 throws, and the [catch]
    block ends as it does for every other exception. *)
Lemma post_todo_nobody st env :
  post_todo st env None = (st, Rejected (ReferenceError "err")).
Proof. done. Qed.

Lemma post_todo_missing_field st env (b : Body) :
  absent_or_empty (b !! "title") ∨ absent_or_empty (b !! "description") ∨
    absent_or_empty (b !! "dueDate") →
  post_todo st env (Some b) = (st, Rejected (ReferenceError "err")).
Proof. intros H. by rewrite post_todo_eq, (Task_save_invalid _ _ _ _ _ H). Qed.

Lemma post_todo_succeeds st env (b : Body) t d due :
  required_string (b !! "title") = Ok t →
  required_string (b !! "description") = Ok d →
  required_date (b !! "dueDate") = Ok due →
  storeUp env = true → findById (freshId env) st = None →
  post_todo st env (Some b) =
    (st ++ [created_task env t d due],
     Responded (res_json (Json_task_message (QDoc (created_task env t d due))
                            "Task created successfully"))).
Proof.
  intros Ht Hd Hdue Hup Hf. rewrite post_todo_eq.
  assert (Task_save st env (b !! "title") (b !! "description") (b !! "dueDate")
          = Ok (st ++ [created_task env t d due], QDoc (created_task env t d due)))
    as -> by (apply Task_save_Ok; by exists t, d, due).
  done.
Qed.

Lemma post_todo_has_body st env (rb : ReqBody) st' r :
  post_todo st env rb = (st', Responded r) → ∃ b, rb = Some b.
Proof. destruct rb as [b|]; [by exists b | by rewrite post_todo_nobody]. Qed.

Lemma post_todo_responded st env (b : Body) st' r :
  post_todo st env (Some b) = (st', Responded r) →
  ∃ t d due,
    required_string (b !! "title") = Ok t ∧
    required_string (b !! "description") = Ok d ∧
    required_date (b !! "dueDate") = Ok due ∧
    storeUp env = true ∧ findById (freshId env) st = None ∧
    st' = st ++ [created_task env t d due] ∧
    r = res_json (Json_task_message (QDoc (created_task env t d due))
                    "Task created successfully").
Proof.
  rewrite post_todo_eq.
  destruct (Task_save _ _ _ _ _) as [[st1 v]|e] eqn:E; [|done].
  intros [= <- <-].
  apply Task_save_Ok in E as (t & d & due & ? & ? & ? & ? & ? & -> & ->).
  by exists t, d, due.
Qed.

(** The two ways a create request ends, for every request body. *)
Lemma post_todo_cases st env (rb : ReqBody) :
  post_todo st env rb = (st, Rejected (ReferenceError "err")) ∨
  ∃ (b : Body) t d due,
    rb = Some b ∧
    required_string (b !! "title") = Ok t ∧
    required_string (b !! "description") = Ok d ∧
    required_date (b !! "dueDate") = Ok due ∧
    storeUp env = true ∧ findById (freshId env) st = None ∧
    post_todo st env rb =
      (st ++ [created_task env t d due],
       Responded (res_json (Json_task_message (QDoc (created_task env t d due))
                              "Task created successfully"))).
Proof.
  destruct rb as [b|]; [|by left].
  destruct (post_todo st env (Some b)) as [st' [r|e]] eqn:E.
  - right. apply post_todo_responded in E as (t & d & due & ? & ? & ? & ? & ? & -> & ->).
    by exists b, t, d, due.
  - left. rewrite post_todo_eq in E.
    destruct (Task_save _ _ _ _ _) as [[st1 v]|x]; [done|]. by injection E as <- <-.
Qed.

(** C1 (the claim: a create request with a missing or empty required field
    stores nothing and is answered 500 with a message).  At the request
    whose body is [{ description: "B", dueDate: "2025-01-01" }] nothing is
    stored, but the handler writes no response at all: its [catch] block
    throws the [ReferenceError] for [err] before it reaches
    [res.status(500)]. *)
Theorem post_todo_missing_title_writes_no_response st env :
  let b : Body := {[ "description" := JStr "B"; "dueDate" := JStr "2025-01-01" ]} in
  post_todo st env (Some b) = (st, Rejected (ReferenceError "err")) ∧
  ∀ c msg,
    (post_todo st env (Some b)).2 ≠ Responded (res_status_json c (Json_message msg)).
Proof.
  intros b.
  assert (post_todo st env (Some b) = (st, Rejected (ReferenceError "err"))) as E.
  { apply post_todo_missing_field. left. by left. }
  split; [done|]. intros c msg. by rewrite E.
Qed.

(** C4: a successful create returns the stored task; its identifier is the
    one generated for the request and differs from that of every task
    already stored (so identifiers stay unique in the store), its
    [dateCreated] is the creation time, hence not later than now, and its
    [completed] is false. *)
Theorem create_returns_fresh_defaulted_task st env (b : ReqBody) st' r :
  post_todo st env b = (st', Responded r) →
  ∃ t,
    r = res_json (Json_task_message (QDoc t) "Task created successfully") ∧
    st' = st ++ [t] ∧
    _id t = freshId env ∧
    (∀ u, u ∈ st → _id u ≠ _id t) ∧
    (store_wf st → store_wf st' ∧ findById (_id t) st' = Some t) ∧
    dateCreated t = now env ∧ dateCreated t ≤ now env ∧
    completed t = Some false.
Proof.
  intros H. destruct (post_todo_has_body _ _ _ _ _ H) as [b0 ->].
  apply post_todo_responded in H as (t & d & due & _ & _ & _ & _ & Hf & -> & ->).
  exists (created_task env t d due). split_and!; try done.
  - intros u Hu E. apply findById_None in Hf. apply Hf.
    unfold ids. simpl in E. rewrite <- E. by apply list_elem_of_fmap_2.
  - intros Hwf. split; [by apply insert_wf|].
    assert (is_Some (findById (freshId env) (st ++ [created_task env t d due]))) as [u Hu].
    { apply findById_is_Some. unfold ids. rewrite fmap_app. set_solver. }
    simpl. rewrite Hu. f_equal.
    destruct (findById_Some _ _ _ Hu) as [Hin Hid].
    apply elem_of_app in Hin as [Hin|Hin]; [|by apply list_elem_of_singleton in Hin].
    exfalso. apply findById_None in Hf. apply Hf. rewrite <- Hid.
    unfold ids. by apply list_elem_of_fmap_2.
Qed.

(** C9: the create handler reads [title], [description] and [dueDate] from
    the body and nothing else.  Two bodies that agree on these three keys
    give the same store and the same response; and whatever else a body
    holds, the created task has the generated id, the creation time and
    [completed = false]. *)
Theorem create_depends_on_three_fields_only (b1 b2 : Body) :
  b1 !! "title" = b2 !! "title" →
  b1 !! "description" = b2 !! "description" →
  b1 !! "dueDate" = b2 !! "dueDate" →
  (∀ st env, post_todo st env (Some b1) = post_todo st env (Some b2)) ∧
  (∀ st1 env1 st1' r1 st2 env2 st2' r2,
     post_todo st1 env1 (Some b1) = (st1', Responded r1) →
     post_todo st2 env2 (Some b2) = (st2', Responded r2) →
     ∃ t1 t2,
       r1 = res_json (Json_task_message (QDoc t1) "Task created successfully") ∧
       r2 = res_json (Json_task_message (QDoc t2) "Task created successfully") ∧
       title t1 = title t2 ∧ description t1 = description t2 ∧
       dueDate t1 = dueDate t2 ∧
       completed t1 = Some false ∧ completed t2 = Some false ∧
       _id t1 = freshId env1 ∧ _id t2 = freshId env2 ∧
       dateCreated t1 = now env1 ∧ dateCreated t2 = now env2).
Proof.
  intros Ht Hd Hdue. split.
  - intros st env. by rewrite !post_todo_eq, Ht, Hd, Hdue.
  - intros st1 env1 st1' r1 st2 env2 st2' r2 H1 H2.
    apply post_todo_responded in H1 as (t & d & due & ? & ? & ? & _ & _ & _ & ->).
    apply post_todo_responded in H2 as (t' & d' & due' & ? & ? & ? & _ & _ & _ & ->).
    exists (created_task env1 t d due), (created_task env2 t' d' due').
    unfold created_task; simpl. split_and!; try done; congruence.
Qed.

(** ** Updating, completing and deleting by id *)

Lemma apply_update_empty u t : update_is_empty u = true → apply_update u t = t.
Proof.
  destruct u as [[?|] [?|] [?|] [?|]]; try done. intros _. by destruct t.
Qed.

(** The three outcomes of [findByIdAndUpdate]: the id or the update does not
    cast, the database is down, or the query runs and resolves to the
    updated document or to [null]. *)
Lemma findByIdAndUpdate_found st env id t u :
  store_wf st → t ∈ st → castObjectId id = Some (_id t) → storeUp env = true →
  Task_findByIdAndUpdate st env id (Ok u) =
    Ok (replaceById (_id t) (apply_update u t) st, QDoc (apply_update u t)) ∧
  (update_is_empty u = true → replaceById (_id t) (apply_update u t) st = st).
Proof.
  intros Hwf Hin Hc Hup. unfold Task_findByIdAndUpdate. rewrite Hc. simpl.
  rewrite Hup. simpl. rewrite (findById_elem _ _ Hwf Hin).
  assert (update_is_empty u = true → replaceById (_id t) (apply_update u t) st = st) as He.
  { intros He. rewrite (apply_update_empty _ _ He).
    clear Hc. unfold store_wf, ids in Hwf.
    induction st as [|x st IH]; simpl; [done|].
    apply NoDup_cons in Hwf as [Hx Hst].
    apply elem_of_cons in Hin as [->|Hin]; [by rewrite N.eqb_refl|].
    destruct (N.eqb_spec (_id x) (_id t)) as [E|E]; [|by rewrite IH].
    exfalso. apply Hx. rewrite E. by apply list_elem_of_fmap_2. }
  split; [|done].
  destruct (update_is_empty u) eqn:E; [|done].
  simpl. by rewrite (He eq_refl), (apply_update_empty _ _ E).
Qed.

Lemma findByIdAndUpdate_absent st env id oid u :
  castObjectId id = Some oid → findById oid st = None → storeUp env = true →
  Task_findByIdAndUpdate st env id (Ok u) = Ok (st, QNull).
Proof.
  intros Hc Hf Hup. unfold Task_findByIdAndUpdate. rewrite Hc. simpl.
  rewrite Hup, Hf. simpl. by destruct (update_is_empty u).
Qed.

Lemma findByIdAndUpdate_store st env id u st' v :
  Task_findByIdAndUpdate st env id u = Ok (st', v) →
  ¬ carries st id → st' = st ∧ v = QNull.
Proof.
  unfold Task_findByIdAndUpdate. intros H Hn.
  destruct (castObjectId id) as [oid|] eqn:Hc; [|done].
  rewrite (not_carried_findById _ _ _ Hn Hc) in H.
  destruct u as [u|]; [|done]. simpl in H.
  destruct (storeUp env); [|done]. simpl in H.
  destruct (update_is_empty u); by injection H as <- <-.
Qed.

Lemma findByIdAndUpdate_ids st env id u st' v :
  Task_findByIdAndUpdate st env id u = Ok (st', v) → ids st' = ids st.
Proof.
  unfold Task_findByIdAndUpdate. intros H.
  destruct (castObjectId id) as [oid|] eqn:Hc; [|done].
  destruct u as [u|]; [|done]. simpl in H.
  destruct (storeUp env); [|done]. simpl in H.
  destruct (update_is_empty u); [by injection H as <- <-|].
  destruct (findById oid st) as [t|] eqn:Hf; injection H as <- <-; [|done].
  apply ids_replaceById. simpl. by apply findById_Some in Hf as [_ ?].
Qed.

Lemma findByIdAndDelete_found st env id t :
  store_wf st → t ∈ st → castObjectId id = Some (_id t) → storeUp env = true →
  Task_findByIdAndDelete st env id = Ok (removeById (_id t) st, QDoc t).
Proof.
  intros Hwf Hin Hc Hup. unfold Task_findByIdAndDelete. rewrite Hc, Hup. simpl.
  by rewrite (findById_elem _ _ Hwf Hin).
Qed.

Lemma findByIdAndDelete_absent st env id oid :
  castObjectId id = Some oid → findById oid st = None → storeUp env = true →
  Task_findByIdAndDelete st env id = Ok (st, QNull).
Proof.
  intros Hc Hf Hup. unfold Task_findByIdAndDelete. by rewrite Hc, Hup, Hf.
Qed.

Lemma findByIdAndDelete_store st env id st' v :
  Task_findByIdAndDelete st env id = Ok (st', v) →
  ¬ carries st id → st' = st ∧ v = QNull.
Proof.
  unfold Task_findByIdAndDelete. intros H Hn.
  destruct (castObjectId id) as [oid|] eqn:Hc; [|done].
  rewrite (not_carried_findById _ _ _ Hn Hc) in H.
  destruct (storeUp env); [|done]. by injection H as <- <-.
Qed.

Lemma findByIdAndDelete_ids st env id st' v :
  Task_findByIdAndDelete st env id = Ok (st', v) → sublist (ids st') (ids st).
Proof.
  unfold Task_findByIdAndDelete. intros H.
  destruct (castObjectId id) as [oid|] eqn:Hc; [|done].
  destruct (storeUp env); [|done]. simpl in H.
  destruct (findById oid st) as [t|] eqn:Hf; injection H as <- <-; [|done].
  apply ids_removeById_sublist.
Qed.

Lemma patch_complete_eq st env id (b : Body) :
  patch_complete st env id (Some b) =
  answer "Task set to 'complete." "Task not found" "Error completing the task!" st
    (Task_findByIdAndUpdate st env id (update_completed (b !! "completed"))).
Proof.
  unfold patch_complete, answer. simpl.
  by destruct (Task_findByIdAndUpdate _ _ _ _) as [[st' [|t|l]]|e].
Qed.

Lemma patch_notComplete_eq st env id (b : Body) :
  patch_notComplete st env id (Some b) =
  answer "Task set to ' not complete." "Task not found"
    "Error setting task to not complete!" st
    (Task_findByIdAndUpdate st env id (update_completed (b !! "completed"))).
Proof.
  unfold patch_notComplete, answer. simpl.
  by destruct (Task_findByIdAndUpdate _ _ _ _) as [[st' [|t|l]]|e].
Qed.

Lemma put_update_eq st env id (b : Body) :
  put_update st env id (Some b) =
  answer "Task updated successfully!" "Task not found!" "Error updating the task!" st
    (Task_findByIdAndUpdate st env id
       (update_details (b !! "title") (b !! "description") (b !! "dueDate"))).
Proof.
  unfold put_update, answer. simpl.
  by destruct (Task_findByIdAndUpdate _ _ _ _) as [[st' [|t|l]]|e].
Qed.

(** Without a body the destructuring (lines 117, 140, 182) throws inside the
    [try], and the [catch] block answers 500. *)
Lemma patch_complete_nobody st env id :
  patch_complete st env id None = (st, Failed "Error completing the task!").
Proof. done. Qed.

Lemma patch_notComplete_nobody st env id :
  patch_notComplete st env id None = (st, Failed "Error setting task to not complete!").
Proof. done. Qed.

Lemma put_update_nobody st env id :
  put_update st env id None = (st, Failed "Error updating the task!").
Proof. done. Qed.

Lemma findByIdAndUpdate_throw st env id e :
  ∃ e', Task_findByIdAndUpdate st env id (Throw e) = Throw e'.
Proof.
  unfold Task_findByIdAndUpdate. destruct (castObjectId id); simpl; eauto.
Qed.

(** The three handlers for every request body, present or not. *)
Lemma patch_complete_req st env id (rb : ReqBody) :
  patch_complete st env id rb =
  answer "Task set to 'complete." "Task not found" "Error completing the task!" st
    (Task_findByIdAndUpdate st env id (completion_update rb)).
Proof.
  destruct rb as [b|]; [apply patch_complete_eq|].
  rewrite patch_complete_nobody. change (completion_update None) with (@Throw Update TypeError).
  by destruct (findByIdAndUpdate_throw st env id TypeError) as [e' ->].
Qed.

Lemma patch_notComplete_req st env id (rb : ReqBody) :
  patch_notComplete st env id rb =
  answer "Task set to ' not complete." "Task not found"
    "Error setting task to not complete!" st
    (Task_findByIdAndUpdate st env id (completion_update rb)).
Proof.
  destruct rb as [b|]; [apply patch_notComplete_eq|].
  rewrite patch_notComplete_nobody. change (completion_update None) with (@Throw Update TypeError).
  by destruct (findByIdAndUpdate_throw st env id TypeError) as [e' ->].
Qed.

Lemma put_update_req st env id (rb : ReqBody) :
  put_update st env id rb =
  answer "Task updated successfully!" "Task not found!" "Error updating the task!" st
    (Task_findByIdAndUpdate st env id (details_update rb)).
Proof.
  destruct rb as [b|]; [apply put_update_eq|].
  rewrite put_update_nobody. change (details_update None) with (@Throw Update TypeError).
  by destruct (findByIdAndUpdate_throw st env id TypeError) as [e' ->].
Qed.

Lemma delete_task_eq st env id :
  delete_task st env id =
  answer "Task deleted successfully!" "Task not found!" "Error deleting the task!" st
    (Task_findByIdAndDelete st env id).
Proof.
  unfold delete_task, answer.
  by destruct (Task_findByIdAndDelete _ _ _) as [[st' [|t|l]]|e].
Qed.

(** The update document of the update route never has a [completed] key. *)
Lemma update_details_completed a b c u :
  update_details a b c = Ok u → set_completed u = None.
Proof.
  unfold update_details.
  destruct (cast_path castString a); [|done].
  destruct (cast_path castString b); [|done].
  destruct (cast_path castDate c); [|done].
  by intros [= <-].
Qed.

(** C2: updating an existing task with a title, a description and a due date
    replaces these three fields by the values given (as the schema casts
    them) and keeps [_id], [dateCreated] and [completed]; the task in the
    response is the task that is in the store afterwards, and no other task
    changes.  The second part holds for every body: whatever an update
    request carries, a task it returns has the old [_id], [dateCreated] and
    [completed]. *)
Theorem update_replaces_three_fields st env id t :
  store_wf st → t ∈ st → castObjectId id = Some (_id t) → storeUp env = true →
  (∀ (b : Body) vt vd vdue a d due,
     b !! "title" = Some vt → b !! "description" = Some vd →
     b !! "dueDate" = Some vdue →
     castString vt = Ok a → castString vd = Ok d → castDate vdue = Ok due →
     let t' := {| _id := _id t; title := a; description := d; dueDate := due;
                  dateCreated := dateCreated t; completed := completed t |} in
     put_update st env id (Some b) =
       (replaceById (_id t) t' st,
        Responded (res_json (Json_task_message (QDoc t') "Task updated successfully!"))) ∧
     findById (_id t) (replaceById (_id t) t' st) = Some t' ∧
     (∀ oid, oid ≠ _id t →
        findById oid (replaceById (_id t) t' st) = findById oid st)) ∧
  (∀ (b : ReqBody) st' t' msg,
     put_update st env id b =
       (st', Responded (res_json (Json_task_message (QDoc t') msg))) →
     _id t' = _id t ∧ dateCreated t' = dateCreated t ∧ completed t' = completed t ∧
     findById (_id t) st' = Some t').
Proof.
  intros Hwf Hin Hc Hup. split.
  - intros b vt vd vdue a d due Ht Hd Hdue Ha Hb Hdu t'.
    rewrite put_update_eq, Ht, Hd, Hdue.
    unfold update_details, cast_path. rewrite Ha, Hb, Hdu. simpl.
    destruct (findByIdAndUpdate_found st env id t (mkUpdate (Some a) (Some d) (Some due) None)
                Hwf Hin Hc Hup) as [-> _].
    split_and!; [done | |].
    + apply findById_replaceById_eq; [done|]. by rewrite (findById_elem _ _ Hwf Hin).
    + intros oid Hne. by apply findById_replaceById_ne.
  - intros [b|] st' t' msg; [|by rewrite put_update_nobody]. rewrite put_update_eq.
    destruct (update_details _ _ _) as [u|e] eqn:Hu;
      [|by unfold Task_findByIdAndUpdate; rewrite Hc].
    apply update_details_completed in Hu.
    destruct (findByIdAndUpdate_found st env id t u Hwf Hin Hc Hup) as [-> _].
    simpl. intros [= <- <- _]. split_and!; try done.
    + simpl. by rewrite Hu.
    + apply findById_replaceById_eq; [done|]. by rewrite (findById_elem _ _ Hwf Hin).
Qed.

(** C6: deleting an existing task by its id removes it from the store (no
    task with that id is left, every other task stays) and the response
    carries the task as it was. *)
Theorem delete_removes_and_returns_task st env id t :
  store_wf st → t ∈ st → castObjectId id = Some (_id t) → storeUp env = true →
  delete_task st env id =
    (removeById (_id t) st,
     Responded (res_json (Json_task_message (QDoc t) "Task deleted successfully!"))) ∧
  findById (_id t) (removeById (_id t) st) = None ∧
  ¬ carries (removeById (_id t) st) id ∧
  st ≡ₚ t :: removeById (_id t) st ∧
  (∀ oid, oid ≠ _id t → findById oid (removeById (_id t) st) = findById oid st).
Proof.
  intros Hwf Hin Hc Hup.
  rewrite delete_task_eq, (findByIdAndDelete_found _ _ _ _ Hwf Hin Hc Hup).
  pose proof (findById_removeById_eq (_id t) st Hwf) as Hgone.
  split_and!; [done | done | | |].
  - rewrite carries_ids. intros (oid & Hc' & Hin').
    rewrite Hc in Hc'. injection Hc' as <-. by apply findById_None in Hgone.
  - apply removeById_Permutation. by apply findById_elem.
  - intros oid Hne. by apply findById_removeById_ne.
Qed.

(** C10, as the code has it: on an existing task, a completion request
    whose body is a JSON object without a [completed] key changes nothing
    and is answered 200 with the task as it is; this holds for both
    routes. *)
Theorem completion_without_field_is_noop st env id t (b : Body) :
  store_wf st → t ∈ st → castObjectId id = Some (_id t) → storeUp env = true →
  b !! "completed" = None →
  patch_complete st env id (Some b) =
    (st, Responded (res_json (Json_task_message (QDoc t) "Task set to 'complete."))) ∧
  patch_notComplete st env id (Some b) =
    (st, Responded (res_json (Json_task_message (QDoc t) "Task set to ' not complete."))).
Proof.
  intros Hwf Hin Hc Hup Hb.
  rewrite patch_complete_eq, patch_notComplete_eq, Hb.
  change (update_completed None) with (Ok (mkUpdate None None None None)).
  destruct (findByIdAndUpdate_found st env id t (mkUpdate None None None None)
              Hwf Hin Hc Hup) as [-> He].
  rewrite (He eq_refl). simpl. by destruct t.
Qed.

(** ** The two completion routes *)

(** When [findByIdAndUpdate] resolves to [null]. *)
Lemma findByIdAndUpdate_null st env id u st' :
  Task_findByIdAndUpdate st env id u = Ok (st', QNull) ↔
  st' = st ∧ ∃ oid u', castObjectId id = Some oid ∧ u = Ok u' ∧
    storeUp env = true ∧ findById oid st = None.
Proof.
  unfold Task_findByIdAndUpdate. split.
  - destruct (castObjectId id) as [oid|]; [|done].
    destruct u as [u|]; [|done]. simpl.
    destruct (storeUp env); [|done]. simpl.
    destruct (findById oid st) as [t|] eqn:Hf.
    + by destruct (update_is_empty u).
    + intros H. split; [by destruct (update_is_empty u); injection H as <-|].
      by exists oid, u.
  - intros (-> & oid & u' & -> & -> & -> & ->). simpl. by destruct (update_is_empty u').
Qed.

Lemma answer_status_404 f m e st r :
  status_of (answer f m e st r).2 = Some 404 ↔ ∃ st', r = Ok (st', QNull).
Proof.
  unfold answer. destruct r as [[st' [|t|l]]|x]; simpl; split;
    try done; try (intros [? [=]]); by eauto.
Qed.

(** C7: the routes [complete/:id] and [notComplete/:id] do the same thing.
    For every store, id and body they leave the same store, answer with the
    same status and the same task, and answer 404 in the same case, namely
    when the id and the body cast, the query runs and no task has the id.
    On an existing task and a body whose [completed] is a boolean, both set
    the task's [completed] to that boolean.  (The [message] texts of the two
    routes differ.) *)
Theorem completion_routes_equivalent st env id (b : ReqBody) :
  let p := patch_complete st env id b in
  let q := patch_notComplete st env id b in
  p.1 = q.1 ∧ status_of p.2 = status_of q.2 ∧ task_of p.2 = task_of q.2 ∧
  (status_of p.2 = Some 404 ↔
     ∃ oid u, castObjectId id = Some oid ∧ completion_update b = Ok u ∧
       storeUp env = true ∧ findById oid st = None) ∧
  (status_of q.2 = Some 404 ↔
     ∃ oid u, castObjectId id = Some oid ∧ completion_update b = Ok u ∧
       storeUp env = true ∧ findById oid st = None) ∧
  (∀ t c (o : Body), store_wf st → t ∈ st → castObjectId id = Some (_id t) →
     storeUp env = true → b = Some o → o !! "completed" = Some (JBool c) →
     let t' := {| _id := _id t; title := title t; description := description t;
                  dueDate := dueDate t; dateCreated := dateCreated t;
                  completed := Some c |} in
     p = (replaceById (_id t) t' st,
          Responded (res_json (Json_task_message (QDoc t') "Task set to 'complete."))) ∧
     q = (replaceById (_id t) t' st,
          Responded (res_json (Json_task_message (QDoc t') "Task set to ' not complete."))) ∧
     findById (_id t) (replaceById (_id t) t' st) = Some t').
Proof.
  intros p q. subst p q. rewrite patch_complete_req, patch_notComplete_req.
  split_and!.
  - unfold answer. by destruct (Task_findByIdAndUpdate _ _ _ _) as [[st' [|t|l]]|e].
  - unfold answer. by destruct (Task_findByIdAndUpdate _ _ _ _) as [[st' [|t|l]]|e].
  - unfold answer. by destruct (Task_findByIdAndUpdate _ _ _ _) as [[st' [|t|l]]|e].
  - rewrite answer_status_404. split.
    + intros [st' H]. apply findByIdAndUpdate_null in H as (_ & oid & u & ? & ? & ? & ?).
      by exists oid, u.
    + intros (oid & u & ? & ? & ? & ?). exists st.
      apply findByIdAndUpdate_null. split; [done|]. by exists oid, u.
  - rewrite answer_status_404. split.
    + intros [st' H]. apply findByIdAndUpdate_null in H as (_ & oid & u & ? & ? & ? & ?).
      by exists oid, u.
    + intros (oid & u & ? & ? & ? & ?). exists st.
      apply findByIdAndUpdate_null. split; [done|]. by exists oid, u.
  - intros t c o Hwf Hin Hc Hup -> Hb t'.
    change (completion_update (Some o)) with (update_completed (o !! "completed")).
    rewrite Hb.
    change (update_completed (Some (JBool c)))
      with (Ok (mkUpdate None None None (Some (Some c)))).
    destruct (findByIdAndUpdate_found st env id t (mkUpdate None None None (Some (Some c)))
                Hwf Hin Hc Hup) as [-> _].
    split_and!; [done | done |].
    apply findById_replaceById_eq; [done|]. by rewrite (findById_elem _ _ Hwf Hin).
Qed.

(** ** Ids that no task carries *)

Lemma answer_fst f m e st r :
  (answer f m e st r).1 = match r with Ok (st', _) => st' | Throw _ => st end.
Proof. unfold answer. by destruct r as [[st' [|t|l]]|x]. Qed.

(** The ids in the store after a request: those before, and the generated
    one if the request is a create. *)
Lemma handle_ids st env r x :
  x ∈ ids (handle st env r).1 →
  x ∈ ids st ∨ ∃ b, r = PostTodo b ∧ x = freshId env.
Proof.
  destruct r as [sortBy|b|id b|id b|id|id b]; simpl.
  - unfold get_tasks, Task_find_sort. destruct (storeUp env); simpl; by left.
  - destruct (post_todo_cases st env b)
      as [->|(b0 & t & d & due & -> & _ & _ & _ & _ & _ & ->)]; simpl; [by left|].
    unfold ids. rewrite fmap_app, elem_of_app. simpl.
    intros [?|H]; [by left|]. apply list_elem_of_singleton in H. right.
    by exists (Some b0).
  - rewrite patch_complete_req, answer_fst.
    destruct (Task_findByIdAndUpdate _ _ _ _) as [[st' v]|e] eqn:E; [|by left].
    rewrite (findByIdAndUpdate_ids _ _ _ _ _ _ E). by left.
  - rewrite patch_notComplete_req, answer_fst.
    destruct (Task_findByIdAndUpdate _ _ _ _) as [[st' v]|e] eqn:E; [|by left].
    rewrite (findByIdAndUpdate_ids _ _ _ _ _ _ E). by left.
  - rewrite delete_task_eq, answer_fst.
    destruct (Task_findByIdAndDelete _ _ _) as [[st' v]|e] eqn:E; [|by left].
    intros H. left. eapply elem_of_sublist; [done|].
    by apply (findByIdAndDelete_ids _ _ _ _ _ E).
  - rewrite put_update_req, answer_fst.
    destruct (Task_findByIdAndUpdate _ _ _ _) as [[st' v]|e] eqn:E; [|by left].
    rewrite (findByIdAndUpdate_ids _ _ _ _ _ _ E). by left.
Qed.

Lemma run_keeps_absent oid st rs :
  oid ∉ ids st → never_reissues oid rs → oid ∉ ids (run st rs).
Proof.
  revert st. induction rs as [|[env r] rs IH]; intros st Hn Hrs; simpl; [done|].
  apply IH.
  - intros H. apply handle_ids in H as [H|(b & -> & H)]; [done|].
    apply (Hrs env b); [left | done].
  - intros env' b' H. apply (Hrs env' b'). by right.
Qed.

(** The unique index is an invariant of the service. *)
Lemma handle_wf st env r : store_wf st → store_wf (handle st env r).1.
Proof.
  intros Hwf. destruct r as [sortBy|b|id b|id b|id|id b]; simpl.
  - unfold get_tasks, Task_find_sort. by destruct (storeUp env).
  - destruct (post_todo_cases st env b)
      as [->|(b0 & t & d & due & -> & _ & _ & _ & _ & Hf & ->)]; simpl; [done|].
    by apply insert_wf.
  - rewrite patch_complete_req, answer_fst.
    destruct (Task_findByIdAndUpdate _ _ _ _) as [[st' v]|e] eqn:E; [|done].
    unfold store_wf. by rewrite (findByIdAndUpdate_ids _ _ _ _ _ _ E).
  - rewrite patch_notComplete_req, answer_fst.
    destruct (Task_findByIdAndUpdate _ _ _ _) as [[st' v]|e] eqn:E; [|done].
    unfold store_wf. by rewrite (findByIdAndUpdate_ids _ _ _ _ _ _ E).
  - rewrite delete_task_eq, answer_fst.
    destruct (Task_findByIdAndDelete _ _ _) as [[st' v]|e] eqn:E; [|done].
    eapply sublist_NoDup; [done | by apply (findByIdAndDelete_ids _ _ _ _ _ E)].
  - rewrite put_update_req, answer_fst.
    destruct (Task_findByIdAndUpdate _ _ _ _) as [[st' v]|e] eqn:E; [|done].
    unfold store_wf. by rewrite (findByIdAndUpdate_ids _ _ _ _ _ _ E).
Qed.

Lemma run_wf st rs : store_wf st → store_wf (run st rs).
Proof.
  revert st. induction rs as [|[env r] rs IH]; intros st Hwf; simpl; [done|].
  by apply IH, handle_wf.
Qed.

(** Every store the service reaches from the empty collection has unique
    ids. *)
Lemma reachable_wf rs : store_wf (run [] rs).
Proof. apply run_wf. apply NoDup_nil_2. Qed.

(** C5, as the code has it: a request for an id that no stored task carries
    never changes the store.  It is answered 404 when the id is a
    well-formed ObjectId, the request has a body whose fields cast to their
    schema types and the query runs; it is answered 500 when the id is not a
    well-formed ObjectId, and a completion or update request also when it
    has no body.  An id whose task was deleted is carried by no task after
    any further requests, as long as the generator does not issue it
    again. *)
Theorem absent_id_not_found :
  (∀ st env id (b : ReqBody), ¬ carries st id →
     ((patch_complete st env id b).1 = st ∧ (patch_notComplete st env id b).1 = st ∧
      (put_update st env id b).1 = st ∧ (delete_task st env id).1 = st) ∧
     (∀ oid, castObjectId id = Some oid → storeUp env = true →
        delete_task st env id = (st, Not_found "Task not found!") ∧
        (∀ u, completion_update b = Ok u →
           patch_complete st env id b = (st, Not_found "Task not found") ∧
           patch_notComplete st env id b = (st, Not_found "Task not found")) ∧
        (∀ u, details_update b = Ok u →
           put_update st env id b = (st, Not_found "Task not found!"))) ∧
     (castObjectId id = None ∨ b = None →
        patch_complete st env id b = (st, Failed "Error completing the task!") ∧
        patch_notComplete st env id b = (st, Failed "Error setting task to not complete!") ∧
        put_update st env id b = (st, Failed "Error updating the task!")) ∧
     (castObjectId id = None →
        delete_task st env id = (st, Failed "Error deleting the task!"))) ∧
  (∀ st env id t rs,
     store_wf st → t ∈ st → castObjectId id = Some (_id t) → storeUp env = true →
     never_reissues (_id t) rs →
     ¬ carries (run (delete_task st env id).1 rs) id).
Proof.
  split.
  - intros st env id b Hn. split_and!.
    + rewrite patch_complete_req, answer_fst.
      destruct (Task_findByIdAndUpdate _ _ _ _) as [[st' v]|e] eqn:E; [|done].
      by apply (findByIdAndUpdate_store _ _ _ _ _ _ E).
    + rewrite patch_notComplete_req, answer_fst.
      destruct (Task_findByIdAndUpdate _ _ _ _) as [[st' v]|e] eqn:E; [|done].
      by apply (findByIdAndUpdate_store _ _ _ _ _ _ E).
    + rewrite put_update_req, answer_fst.
      destruct (Task_findByIdAndUpdate _ _ _ _) as [[st' v]|e] eqn:E; [|done].
      by apply (findByIdAndUpdate_store _ _ _ _ _ _ E).
    + rewrite delete_task_eq, answer_fst.
      destruct (Task_findByIdAndDelete _ _ _) as [[st' v]|e] eqn:E; [|done].
      by apply (findByIdAndDelete_store _ _ _ _ _ E).
    + intros oid Hc Hup. pose proof (not_carried_findById _ _ _ Hn Hc) as Hf.
      split_and!.
      * by rewrite delete_task_eq, (findByIdAndDelete_absent _ _ _ _ Hc Hf Hup).
      * intros u Hu.
        by rewrite patch_complete_req, patch_notComplete_req, Hu,
          (findByIdAndUpdate_absent _ _ _ _ _ Hc Hf Hup).
      * intros u Hu.
        by rewrite put_update_req, Hu, (findByIdAndUpdate_absent _ _ _ _ _ Hc Hf Hup).
    + intros [Hc| ->].
      * rewrite patch_complete_req, patch_notComplete_req, put_update_req.
        unfold Task_findByIdAndUpdate. by rewrite Hc.
      * by rewrite patch_complete_nobody, patch_notComplete_nobody, put_update_nobody.
    + intros Hc. rewrite delete_task_eq.
      unfold Task_findByIdAndDelete. by rewrite Hc.
  - intros st env id t rs Hwf Hin Hc Hup Hrs.
    rewrite delete_task_eq, (findByIdAndDelete_found _ _ _ _ Hwf Hin Hc Hup). simpl.
    rewrite carries_ids. intros (oid & Hc' & Hin').
    rewrite Hc in Hc'. injection Hc' as <-.
    revert Hin'. apply run_keeps_absent; [|done].
    apply findById_None. by apply findById_removeById_eq.
Qed.

(** ** Listing *)

#[local] Instance date_le_total : Total date_le.
Proof. intros [x|] [y|]; simpl; auto. lia. Qed.
#[local] Instance date_le_trans : Transitive date_le.
Proof. intros [x|] [y|] [z|]; simpl; auto; try done. lia. Qed.
#[local] Instance dueDate_le_total : Total dueDate_le.
Proof. intros x y. apply date_le_total. Qed.
#[local] Instance dueDate_le_trans : Transitive dueDate_le.
Proof. intros x y z. apply date_le_trans. Qed.
#[local] Instance dateCreated_le_total : Total dateCreated_le.
Proof. intros x y. unfold dateCreated_le. lia. Qed.
#[local] Instance dateCreated_le_trans : Transitive dateCreated_le.
Proof. intros x y z. unfold dateCreated_le. lia. Qed.

Lemma get_tasks_eq st env sortBy :
  get_tasks st env sortBy =
  if storeUp env
  then (st, Responded (res_json (Json_value (QDocs (sort_docs (sortOption_of sortBy) st)))))
  else (st, Failed "Error grabbing tasks!").
Proof. unfold get_tasks, Task_find_sort. by destruct (storeUp env). Qed.

Section IndexScanFacts.
Context {A : Type} (le : A → A → Prop) `{∀ x y, Decision (le x y)}.

Lemma insert_by_Permutation x l : insert_by le x l ≡ₚ x :: l.
Proof.
  induction l as [|y l IH]; simpl; [done|].
  case_decide; [done|]. rewrite IH. apply Permutation_swap.
Qed.

Lemma sort_by_Permutation l : sort_by le l ≡ₚ l.
Proof.
  induction l as [|x l IH]; simpl; [done|].
  by rewrite insert_by_Permutation, IH.
Qed.

Lemma insert_by_StronglySorted `{!Total le, !Transitive le} x l :
  StronglySorted le l → StronglySorted le (insert_by le x l).
Proof.
  induction 1 as [|y l Hl IH Hy]; simpl.
  - repeat constructor.
  - case_decide as Hxy.
    + constructor; [by constructor|]. constructor; [done|].
      eapply Forall_impl; [exact Hy|]. intros z Hz. by transitivity y.
    + constructor; [done|]. rewrite insert_by_Permutation. constructor; [|done].
      by destruct (total le x y).
Qed.

Lemma sort_by_StronglySorted `{!Total le, !Transitive le} l :
  StronglySorted le (sort_by le l).
Proof.
  induction l as [|x l IH]; simpl; [constructor|]. by apply insert_by_StronglySorted.
Qed.

(** The scan is stable: a collection that is already in the order of its
    keys comes back as it is. *)
Lemma sort_by_sorted l : Sorted le l → sort_by le l = l.
Proof.
  induction 1 as [|x l Hl IH Hx]; simpl; [done|].
  rewrite IH. destruct Hx as [|y l Hxy]; simpl; [done|]. by rewrite decide_True.
Qed.
End IndexScanFacts.

(** C3: with [sortBy=dueDate] the list operation returns all stored tasks in
    an order that is non-decreasing in [dueDate] (a [null] date first), with
    [sortBy=dateCreated] in an order that is non-decreasing in
    [dateCreated]; three tasks created one after the other in an empty
    store, the clock not running backwards, come back in the order of their
    creation. *)
Theorem list_is_sorted_by_requested_key st env :
  storeUp env = true →
  (∃ l, get_tasks st env (Some "dueDate") =
          (st, Responded (res_json (Json_value (QDocs l)))) ∧
        l ≡ₚ st ∧ StronglySorted dueDate_le l) ∧
  (∃ l, get_tasks st env (Some "dateCreated") =
          (st, Responded (res_json (Json_value (QDocs l)))) ∧
        l ≡ₚ st ∧ StronglySorted dateCreated_le l) ∧
  (∀ env1 env2 env3 (b1 b2 b3 : ReqBody) s1 s2 s3 r1 r2 r3,
     post_todo [] env1 b1 = (s1, Responded r1) →
     post_todo s1 env2 b2 = (s2, Responded r2) →
     post_todo s2 env3 b3 = (s3, Responded r3) →
     now env1 ≤ now env2 → now env2 ≤ now env3 →
     ∃ c1 c2 c3,
       r1 = res_json (Json_task_message (QDoc c1) "Task created successfully") ∧
       r2 = res_json (Json_task_message (QDoc c2) "Task created successfully") ∧
       r3 = res_json (Json_task_message (QDoc c3) "Task created successfully") ∧
       s3 = [c1; c2; c3] ∧
       get_tasks s3 env (Some "dateCreated") =
         (s3, Responded (res_json (Json_value (QDocs [c1; c2; c3]))))).
Proof.
  intros Hup. split_and!.
  - exists (sort_by dueDate_le st). rewrite get_tasks_eq, Hup. split_and!.
    + done.
    + apply sort_by_Permutation.
    + apply sort_by_StronglySorted; apply _.
  - exists (sort_by dateCreated_le st). rewrite get_tasks_eq, Hup. split_and!.
    + done.
    + apply sort_by_Permutation.
    + apply sort_by_StronglySorted; apply _.
  - intros env1 env2 env3 b1 b2 b3 s1 s2 s3 r1 r2 r3 H1 H2 H3 Hle1 Hle2.
    destruct (post_todo_has_body _ _ _ _ _ H1) as [o1 ->].
    destruct (post_todo_has_body _ _ _ _ _ H2) as [o2 ->].
    destruct (post_todo_has_body _ _ _ _ _ H3) as [o3 ->].
    apply post_todo_responded in H1 as (t1 & d1 & due1 & _ & _ & _ & _ & _ & -> & ->).
    apply post_todo_responded in H2 as (t2 & d2 & due2 & _ & _ & _ & _ & _ & -> & ->).
    apply post_todo_responded in H3 as (t3 & d3 & due3 & _ & _ & _ & _ & _ & -> & ->).
    eexists _, _, _. split_and!; [done..|].
    rewrite get_tasks_eq, Hup.
    change (sort_docs _ ?s) with (sort_by dateCreated_le s). simpl app.
    rewrite sort_by_sorted; [done|].
    repeat constructor; unfold dateCreated_le; simpl; lia.
Qed.

(** C8: listing an empty store, when the query runs, is answered 200 with
    the empty sequence; and no list request, on any store, is ever answered
    404, because the array a query resolves to is truthy also when it is
    empty. *)
Theorem list_of_empty_store_is_not_an_error env sortBy :
  storeUp env = true →
  get_tasks [] env sortBy = ([], Responded (res_json (Json_value (QDocs [])))) ∧
  (∀ st env' sortBy', status_of (get_tasks st env' sortBy').2 ≠ Some 404).
Proof.
  intros Hup. split.
  - rewrite get_tasks_eq, Hup. by destruct (sortOption_of sortBy).
  - intros st env' sortBy'. rewrite get_tasks_eq. by destruct (storeUp env').
Qed.

End Properties.


(* ================================================================== *)
(** * The properties at concrete requests *)

(** The uniqueness invariant of a given store, by evaluation. *)
Ltac wf_by_computation :=
  unfold store_wf, ids; apply (bool_decide_unpack _); vm_compute; exact I.

(** C1, the general form of the defect is [post_todo_missing_field]; the
    same request against the update route, whose [catch] block reads the
    name it binds, is answered 500 with a message. *)
Example put_update_bad_date_answers_500 :
  put_update (RT:=sample_runtime) [task_A] env_up id_A
    (Some {[ "title" := JStr "A"; "dueDate" := JStr "tomorrow" ]})
  = ([task_A], Failed "Error updating the task!").
Proof. vm_compute. reflexivity. Qed.

(** Listing by due date puts the task without a date first; tasks with the
    same key keep the order of the collection. *)
Example list_by_dueDate :
  get_tasks [task_A; task_early; task_new; task_undated] env_up (Some "dueDate") =
    ([task_A; task_early; task_new; task_undated],
     Responded (res_json (Json_value
       (QDocs [task_undated; task_early; task_A; task_new])))).
Proof. vm_compute. reflexivity. Qed.

Example list_by_dateCreated_ties :
  get_tasks [task_early; task_undated; task_A] env_up (Some "dateCreated") =
    ([task_early; task_undated; task_A],
     Responded (res_json (Json_value (QDocs [task_A; task_early; task_undated])))).
Proof. vm_compute. reflexivity. Qed.

(** An unknown sort key lists the collection as it is. *)
Example list_unsorted :
  get_tasks [task_new; task_A] env_up (Some "title") =
    ([task_new; task_A], Responded (res_json (Json_value (QDocs [task_new; task_A])))).
Proof. vm_compute. reflexivity. Qed.

Lemma create_returns_fresh_defaulted_task_witness :
  post_todo (RT:=sample_runtime) [task_A] env_new (Some body_ABC) =
    ([task_A; task_new],
     Responded (res_json (Json_task_message (QDoc task_new) "Task created successfully"))) ∧
  ∃ t,
    [task_A; task_new] = [task_A] ++ [t] ∧ _id t = 2%N ∧
    (∀ u, u ∈ [task_A] → _id u ≠ _id t) ∧
    dateCreated t ≤ now env_new ∧ completed t = Some false.
Proof.
  split; [vm_compute; reflexivity|].
  destruct (create_returns_fresh_defaulted_task (RT:=sample_runtime)
              [task_A] env_new (Some body_ABC) [task_A; task_new]
              (res_json (Json_task_message (QDoc task_new) "Task created successfully"))
              eq_refl) as (t & _ & H1 & H2 & H3 & _ & _ & H4 & H5).
  exists t. repeat split; assumption.
Defined.

Lemma create_depends_on_three_fields_only_witness :
  body_ABC !! "completed" = None ∧
  body_ABC_extra !! "completed" = Some (JBool true) ∧
  body_ABC_extra !! "_id" = Some (JStr id_A) ∧
  ∀ st env,
    post_todo (RT:=sample_runtime) st env (Some body_ABC) =
    post_todo (RT:=sample_runtime) st env (Some body_ABC_extra).
Proof.
  split; [vm_compute; reflexivity|].
  split; [vm_compute; reflexivity|].
  split; [vm_compute; reflexivity|].
  apply (create_depends_on_three_fields_only (RT:=sample_runtime) body_ABC body_ABC_extra);
    vm_compute; reflexivity.
Defined.

Lemma update_replaces_three_fields_witness :
  put_update (RT:=sample_runtime) [task_A; task_new] env_up id_A (Some body_XYZ) =
    ([ {| _id := 1; title := Some "X"; description := Some "Y";
          dueDate := Some 1738368000000; dateCreated := 1000;
          completed := Some false |}; task_new ],
     Responded (res_json (Json_task_message
       (QDoc {| _id := 1; title := Some "X"; description := Some "Y";
                dueDate := Some 1738368000000; dateCreated := 1000;
                completed := Some false |})
       "Task updated successfully!"))).
Proof.
  assert (store_wf [task_A; task_new]) as Hwf.
  { wf_by_computation. }
  assert (task_A ∈ [task_A; task_new]) as Hin by (left).
  destruct (update_replaces_three_fields (RT:=sample_runtime)
              [task_A; task_new] env_up id_A task_A Hwf Hin eq_refl eq_refl) as [H _].
  destruct (H body_XYZ (JStr "X") (JStr "Y") (JStr "2025-02-01")
              (Some "X") (Some "Y") (Some 1738368000000)
              eq_refl eq_refl eq_refl eq_refl eq_refl eq_refl) as [E _].
  exact E.
Defined.

Lemma delete_removes_and_returns_task_witness :
  delete_task [task_A; task_new] env_up id_A =
    ([task_new],
     Responded (res_json (Json_task_message (QDoc task_A) "Task deleted successfully!"))) ∧
  ¬ carries [task_new] id_A.
Proof.
  assert (store_wf [task_A; task_new]) as Hwf.
  { wf_by_computation. }
  assert (task_A ∈ [task_A; task_new]) as Hin by (left).
  destruct (delete_removes_and_returns_task [task_A; task_new] env_up id_A task_A
              Hwf Hin eq_refl eq_refl) as (E & _ & Hn & _).
  split; [exact E | exact Hn].
Defined.

Lemma completion_without_field_is_noop_witness :
  patch_complete [task_A] env_up id_A (Some body_ABC) =
    ([task_A], Responded (res_json (Json_task_message (QDoc task_A) "Task set to 'complete."))) ∧
  patch_notComplete [task_A] env_up id_A (Some ∅) =
    ([task_A],
     Responded (res_json (Json_task_message (QDoc task_A) "Task set to ' not complete."))).
Proof.
  assert (store_wf [task_A]) as Hwf.
  { wf_by_computation. }
  assert (task_A ∈ [task_A]) as Hin by (left).
  split.
  - apply (completion_without_field_is_noop [task_A] env_up id_A task_A body_ABC
             Hwf Hin eq_refl eq_refl eq_refl).
  - apply (completion_without_field_is_noop [task_A] env_up id_A task_A ∅
             Hwf Hin eq_refl eq_refl (lookup_empty _)).
Defined.

Lemma completion_routes_equivalent_witness :
  patch_complete [task_A] env_up id_A (Some body_done) =
    ([task_A_done],
     Responded (res_json (Json_task_message (QDoc task_A_done) "Task set to 'complete."))) ∧
  patch_notComplete [task_A] env_up id_A (Some body_done) =
    ([task_A_done],
     Responded (res_json (Json_task_message (QDoc task_A_done) "Task set to ' not complete."))).
Proof.
  assert (store_wf [task_A]) as Hwf.
  { wf_by_computation. }
  assert (task_A ∈ [task_A]) as Hin by (left).
  destruct (completion_routes_equivalent [task_A] env_up id_A (Some body_done))
    as (_ & _ & _ & _ & _ & H).
  destruct (H task_A true body_done Hwf Hin eq_refl eq_refl eq_refl eq_refl)
    as (Hp & Hq & _).
  split; [exact Hp | exact Hq].
Defined.

(** C10 as stated fails: a completion request without a JSON body has no
    [completed] field either; for it [req.body] is [undefined], the
    destructuring at lines 117 and 140 throws, and both routes answer 500
    on an existing task, which stays as it is. *)
Lemma completion_without_body_answered_500 :
  task_A ∈ [task_A] ∧ castObjectId id_A = Some (_id task_A) ∧ storeUp env_up = true ∧
  patch_complete [task_A] env_up id_A None =
    ([task_A], Failed "Error completing the task!") ∧
  patch_notComplete [task_A] env_up id_A None =
    ([task_A], Failed "Error setting task to not complete!") ∧
  status_of (patch_complete [task_A] env_up id_A None).2 ≠ Some 200.
Proof.
  split_and!.
  - left.
  - vm_compute. reflexivity.
  - reflexivity.
  - vm_compute. reflexivity.
  - vm_compute. reflexivity.
  - vm_compute. discriminate.
Qed.

(** C5 as stated fails: the id [abc] is carried by no task, and deleting it
    is answered 500, not 404; so is completing a well-formed id that no task
    carries when [completed] is not a boolean. *)
Lemma absent_id_answered_500 :
  ¬ carries [task_A] "abc" ∧
  delete_task [task_A] env_up "abc" = ([task_A], Failed "Error deleting the task!") ∧
  status_of (delete_task [task_A] env_up "abc").2 ≠ Some 404 ∧
  ¬ carries [task_A] id_new ∧
  patch_complete [task_A] env_up id_new (Some {[ "completed" := JStr "maybe" ]}) =
    ([task_A], Failed "Error completing the task!").
Proof.
  split_and!.
  - intros (t & _ & Hc). vm_compute in Hc. discriminate Hc.
  - vm_compute. reflexivity.
  - vm_compute. discriminate.
  - intros (t & Hin & Hc). apply list_elem_of_singleton in Hin. subst t.
    vm_compute in Hc. discriminate Hc.
  - vm_compute. reflexivity.
Qed.

Lemma absent_id_not_found_witness :
  delete_task [task_A] env_up id_new = ([task_A], Not_found "Task not found!") ∧
  patch_complete [task_A] env_up id_new (Some body_done) = ([task_A], Not_found "Task not found") ∧
  put_update (RT:=sample_runtime) [task_A] env_up id_new (Some body_XYZ) =
    ([task_A], Not_found "Task not found!") ∧
  ¬ carries
      (run (RT:=sample_runtime) (delete_task [task_A; task_new] env_up id_A).1
         [(env_new, PostTodo (Some body_ABC)); (env_up, PutUpdate id_A (Some body_XYZ))])
      id_A.
Proof.
  destruct (absent_id_not_found (RT:=sample_runtime)) as [H1 H2].
  assert (¬ carries [task_A] id_new) as Hn.
  { intros (t & Hin & Hc). apply list_elem_of_singleton in Hin. subst t.
    vm_compute in Hc. discriminate Hc. }
  destruct (H1 [task_A] env_up id_new (Some body_done) Hn) as (_ & Hnf & _).
  destruct (Hnf 2%N eq_refl eq_refl) as (Hd & Hp & _).
  destruct (H1 [task_A] env_up id_new (Some body_XYZ) Hn) as (_ & Hnf' & _).
  destruct (Hnf' 2%N eq_refl eq_refl) as (_ & _ & Hu).
  split_and!.
  - exact Hd.
  - exact (proj1 (Hp _ eq_refl)).
  - exact (Hu _ eq_refl).
  - apply (H2 [task_A; task_new] env_up id_A task_A).
    + wf_by_computation.
    + left.
    + reflexivity.
    + reflexivity.
    + intros env b Hin.
      apply elem_of_cons in Hin as [Hin|Hin]; [injection Hin as -> _; vm_compute; discriminate|].
      apply list_elem_of_singleton in Hin. discriminate Hin.
Defined.

Lemma list_is_sorted_by_requested_key_witness :
  (∃ l, get_tasks [task_A; task_early; task_undated] env_up (Some "dueDate") =
          ([task_A; task_early; task_undated],
           Responded (res_json (Json_value (QDocs l)))) ∧
        l ≡ₚ [task_A; task_early; task_undated] ∧ StronglySorted dueDate_le l) ∧
  get_tasks [task_A; task_new; task_third] env_up (Some "dateCreated") =
    ([task_A; task_new; task_third],
     Responded (res_json (Json_value (QDocs [task_A; task_new; task_third])))).
Proof.
  split.
  - apply (list_is_sorted_by_requested_key (RT:=sample_runtime)
             [task_A; task_early; task_undated] env_up eq_refl).
  - destruct (list_is_sorted_by_requested_key (RT:=sample_runtime) [] env_up eq_refl)
      as (_ & _ & H).
    assert (now env_first ≤ now env_new) as Hle1 by (simpl; lia).
    assert (now env_new ≤ now env_third) as Hle2 by (simpl; lia).
    destruct (H env_first env_new env_third (Some body_ABC) (Some body_ABC) (Some body_ABC)
                [task_A] [task_A; task_new] [task_A; task_new; task_third]
                _ _ _ eq_refl eq_refl eq_refl Hle1 Hle2)
      as (c1 & c2 & c3 & E1 & E2 & E3 & _ & E).
    injection E1 as <-. injection E2 as <-. injection E3 as <-. exact E.
Defined.

Lemma list_of_empty_store_is_not_an_error_witness :
  get_tasks [] env_up (Some "dueDate") = ([], Responded (res_json (Json_value (QDocs [])))).
Proof.
  exact (proj1 (list_of_empty_store_is_not_an_error env_up (Some "dueDate") eq_refl)).
Defined.

(* ================================================================== *)
(** * Further properties of the handlers *)

(** ** More on the collection *)

Lemma apply_update_idem u t : apply_update u (apply_update u t) = apply_update u t.
Proof. by destruct u as [[?|] [?|] [?|] [?|]]. Qed.

Lemma replaceById_twice oid t' t'' st :
  _id t' = oid → replaceById oid t'' (replaceById oid t' st) = replaceById oid t'' st.
Proof.
  intros Ht. induction st as [|x st IH]; simpl; [done|].
  destruct (N.eqb_spec (_id x) oid) as [E|E]; simpl.
  - by rewrite Ht, N.eqb_refl.
  - apply N.eqb_neq in E. by rewrite E, IH.
Qed.

Lemma elem_of_replaceById oid t' st x :
  x ∈ replaceById oid t' st → x ∈ st ∨ x = t'.
Proof.
  induction st as [|y st IH]; simpl; [by left|].
  destruct (N.eqb (_id y) oid).
  - intros H. apply elem_of_cons in H as [->|H]; [by right | left; by right].
  - intros H. apply elem_of_cons in H as [->|H]; [left; by left|].
    destruct (IH H) as [?|?]; [left; by right | by right].
Qed.

Lemma elem_of_removeById oid st x : x ∈ removeById oid st → x ∈ st.
Proof.
  induction st as [|y st IH]; simpl; [done|].
  destruct (N.eqb (_id y) oid).
  - by right.
  - intros H. apply elem_of_cons in H as [->|H]; [by left | right; by apply IH].
Qed.

Lemma findById_app_fresh oid st t :
  findById oid st = None → _id t = oid → findById oid (st ++ [t]) = Some t.
Proof.
  intros Hn Ht. induction st as [|x st IH]; simpl in *.
  - by rewrite Ht, N.eqb_refl.
  - destruct (N.eqb (_id x) oid); [done | by apply IH].
Qed.

Lemma removeById_app_fresh oid st t :
  findById oid st = None → _id t = oid → removeById oid (st ++ [t]) = st.
Proof.
  intros Hn Ht. induction st as [|x st IH]; simpl in *.
  - by rewrite Ht, N.eqb_refl.
  - destruct (N.eqb (_id x) oid); [done | by rewrite IH].
Qed.

(** [findByIdAndUpdate], by cases. *)
Lemma findByIdAndUpdate_cases st env id r :
  Task_findByIdAndUpdate st env id r =
  match castObjectId id with
  | None => Throw CastError
  | Some oid =>
      match r with
      | Throw e => Throw e
      | Ok u =>
          if storeUp env then
            match findById oid st with
            | None => Ok (st, QNull)
            | Some t =>
                Ok (if update_is_empty u then st
                    else replaceById oid (apply_update u t) st,
                    QDoc (apply_update u t))
            end
          else Throw MongoNetworkError
      end
  end.
Proof.
  unfold Task_findByIdAndUpdate.
  destruct (castObjectId id) as [oid|]; [|done].
  destruct r as [u|e]; [|done]. simpl.
  destruct (storeUp env); [|done]. simpl.
  destruct (findById oid st) as [t|] eqn:Hf, (update_is_empty u) eqn:Hu; simpl; try done.
  by rewrite (apply_update_empty _ _ Hu).
Qed.

Section MoreProperties.
Context `{RT : JsRuntime}.

(** ** Listing *)

(** X1: the list handler never changes the store; the tasks it returns are
    the stored tasks, each once, whatever [sortBy] is; and a [sortBy] other
    than [dueDate] and [dateCreated] (or none) lists the collection in
    insertion order. *)
Theorem list_reads_the_whole_collection st env sortBy :
  (get_tasks st env sortBy).1 = st ∧
  (∀ l, (get_tasks st env sortBy).2 = Responded (res_json (Json_value (QDocs l))) →
        l ≡ₚ st) ∧
  (sortBy ≠ Some "dueDate" → sortBy ≠ Some "dateCreated" → storeUp env = true →
   get_tasks st env sortBy = (st, Responded (res_json (Json_value (QDocs st))))).
Proof.
  rewrite get_tasks_eq. split_and!.
  - by destruct (storeUp env).
  - intros l. destruct (storeUp env); simpl; [|done]. intros [= <-].
    destruct (sortOption_of sortBy); simpl; [done | apply sort_by_Permutation..].
  - intros H1 H2 ->. unfold sortOption_of.
    by rewrite !bool_decide_eq_false_2.
Qed.

(** ** When the database does not answer *)

(** X2: when the query cannot be executed no handler changes the store; the
    list, completion, delete and update handlers answer 500 with their own
    message, and the create handler ends in the [ReferenceError] of its
    [catch] block.  This is so for every request, with or without a
    body. *)
Theorem store_down_changes_nothing st env :
  storeUp env = false →
  (∀ sortBy, get_tasks st env sortBy = (st, Failed "Error grabbing tasks!")) ∧
  (∀ id b, patch_complete st env id b = (st, Failed "Error completing the task!")) ∧
  (∀ id b, patch_notComplete st env id b =
             (st, Failed "Error setting task to not complete!")) ∧
  (∀ id, delete_task st env id = (st, Failed "Error deleting the task!")) ∧
  (∀ id b, put_update st env id b = (st, Failed "Error updating the task!")) ∧
  (∀ b, post_todo st env b = (st, Rejected (ReferenceError "err"))).
Proof.
  intros Hup. split_and!.
  - intros sortBy. by rewrite get_tasks_eq, Hup.
  - intros id b. rewrite patch_complete_req, findByIdAndUpdate_cases, Hup.
    by destruct (castObjectId id); [destruct (completion_update _)|].
  - intros id b. rewrite patch_notComplete_req, findByIdAndUpdate_cases, Hup.
    by destruct (castObjectId id); [destruct (completion_update _)|].
  - intros id. rewrite delete_task_eq. unfold Task_findByIdAndDelete. rewrite Hup.
    by destruct (castObjectId id).
  - intros id b. rewrite put_update_req, findByIdAndUpdate_cases, Hup.
    by destruct (castObjectId id); [destruct (details_update _)|].
  - intros b. destruct (post_todo_cases st env b)
      as [->|(b0 & t & d & due & _ & _ & _ & _ & Hup' & _)]; [done | congruence].
Qed.

(** ** The answers *)

(** X3: every request is answered 200, 404 or 500, except a create request
    that fails, which is not answered by the handler; 404 is only ever the
    answer of a completion, delete or update request. *)
Theorem every_answer_is_200_404_or_500 st env r :
  match (handle st env r).2 with
  | Responded resp => status resp = 200 ∨ status resp = 404 ∨ status resp = 500
  | Rejected e => e = ReferenceError "err" ∧ ∃ b, r = PostTodo b
  end ∧
  (status_of (handle st env r).2 = Some 404 →
   ∃ id, r = DeleteTask id ∨
         ∃ b, r = PatchComplete id b ∨ r = PatchNotComplete id b ∨ r = PutUpdate id b).
Proof.
  destruct r as [sortBy|b|id b|id b|id|id b]; simpl.
  - rewrite get_tasks_eq. destruct (storeUp env); simpl; split; auto; done.
  - destruct (post_todo_cases st env b)
      as [->|(b0 & t & d & due & _ & _ & _ & _ & _ & _ & ->)]; simpl.
    + split; [eauto | done].
    + split; [auto | done].
  - rewrite patch_complete_req. unfold answer.
    destruct (Task_findByIdAndUpdate _ _ _ _) as [[st' [|t|l]]|e]; simpl;
      (split; [auto | intros _; exists id; right; exists b; auto]).
  - rewrite patch_notComplete_req. unfold answer.
    destruct (Task_findByIdAndUpdate _ _ _ _) as [[st' [|t|l]]|e]; simpl;
      (split; [auto | intros _; exists id; right; exists b; auto]).
  - rewrite delete_task_eq. unfold answer.
    destruct (Task_findByIdAndDelete _ _ _) as [[st' [|t|l]]|e]; simpl;
      (split; [auto | intros _; exists id; by left]).
  - rewrite put_update_req. unfold answer.
    destruct (Task_findByIdAndUpdate _ _ _ _) as [[st' [|t|l]]|e]; simpl;
      (split; [auto | intros _; exists id; right; exists b; auto]).
Qed.

(** ** Updates by id *)

Lemma answer_task f m e st r st' t' msg :
  answer f m e st r = (st', Responded (res_json (Json_task_message (QDoc t') msg))) →
  r = Ok (st', QDoc t').
Proof.
  unfold answer. destruct r as [[s [|t|l]]|x]; try done.
  by intros [= -> -> _].
Qed.

Lemma findByIdAndUpdate_QDoc st env id r st' t' oid t :
  castObjectId id = Some oid → findById oid st = Some t →
  Task_findByIdAndUpdate st env id r = Ok (st', QDoc t') →
  ∃ u, r = Ok u ∧ storeUp env = true ∧ t' = apply_update u t ∧
       st' = if update_is_empty u then st else replaceById oid t' st.
Proof.
  intros Hc Hf. rewrite findByIdAndUpdate_cases, Hc.
  destruct r as [u|e]; [|done]. destruct (storeUp env); [|done]. rewrite Hf.
  intros [= <- <-]. by exists u.
Qed.

Lemma findByIdAndUpdate_other st env id r st' v oid' :
  Task_findByIdAndUpdate st env id r = Ok (st', v) →
  castObjectId id ≠ Some oid' → findById oid' st' = findById oid' st.
Proof.
  rewrite findByIdAndUpdate_cases.
  destruct (castObjectId id) as [oid|]; [|done].
  destruct r as [u|e]; [|done]. destruct (storeUp env); [|done].
  destruct (findById oid st) as [t|] eqn:Hf; intros [= <- <-] Hne; [|done].
  destruct (update_is_empty u); [done|].
  apply findById_replaceById_ne; [|congruence].
  simpl. by apply findById_Some in Hf as [_ ?].
Qed.

Lemma update_details_Ok a b c u :
  update_details a b c = Ok u ↔
  ∃ x y z, cast_path castString a = Ok x ∧ cast_path castString b = Ok y ∧
           cast_path castDate c = Ok z ∧ u = mkUpdate x y z None.
Proof.
  unfold update_details. split.
  - destruct (cast_path castString a) as [x|]; [|done].
    destruct (cast_path castString b) as [y|]; [|done].
    destruct (cast_path castDate c) as [z|]; [|done].
    intros [= <-]. by exists x, y, z.
  - by intros (x & y & z & -> & -> & -> & ->).
Qed.

Lemma update_completed_Ok a u :
  update_completed a = Ok u ↔
  ∃ x, cast_path castBoolean a = Ok x ∧ u = mkUpdate None None None x.
Proof.
  unfold update_completed. split.
  - destruct (cast_path castBoolean a) as [x|]; [|done].
    intros [= <-]. by exists x.
  - by intros (x & -> & ->).
Qed.

(** X4: an update request changes only the fields its body has.  On a stored
    task, a field whose key is missing from the body has its old value in
    the task the update returns, and [completed] always has. *)
Theorem update_keeps_fields_missing_from_body st env id oid t (b : Body) st' t' msg :
  castObjectId id = Some oid → findById oid st = Some t →
  put_update st env id (Some b) =
    (st', Responded (res_json (Json_task_message (QDoc t') msg))) →
  (b !! "title" = None → title t' = title t) ∧
  (b !! "description" = None → description t' = description t) ∧
  (b !! "dueDate" = None → dueDate t' = dueDate t) ∧
  completed t' = completed t ∧
  (b !! "title" = None → b !! "description" = None → b !! "dueDate" = None →
   t' = t ∧ st' = st).
Proof.
  intros Hc Hf. rewrite put_update_eq. intros H. apply answer_task in H.
  apply (findByIdAndUpdate_QDoc _ _ _ _ _ _ _ _ Hc Hf) in H as (u & Hu & _ & -> & ->).
  apply update_details_Ok in Hu as (x & y & z & Hx & Hy & Hz & ->).
  split_and!.
  - intros E. rewrite E in Hx. by injection Hx as <-.
  - intros E. rewrite E in Hy. by injection Hy as <-.
  - intros E. rewrite E in Hz. by injection Hz as <-.
  - done.
  - intros E1 E2 E3. rewrite E1 in Hx. rewrite E2 in Hy. rewrite E3 in Hz.
    injection Hx as <-. injection Hy as <-. injection Hz as <-.
    split; [by destruct t | done].
Qed.

(** X5: the update route validates nothing.  The body
    [{ title: "", description: null, dueDate: "" }], which the create
    route refuses, is accepted for a stored task: the answer is 200 and the
    task is stored with an empty title and with [null] for its description
    and due date. *)
Theorem update_accepts_what_create_refuses st env id oid t (b : Body) :
  castObjectId id = Some oid → findById oid st = Some t → storeUp env = true →
  b !! "title" = Some (JStr "") → b !! "description" = Some JNull →
  b !! "dueDate" = Some (JStr "") →
  let t' := {| _id := _id t; title := Some ""; description := None; dueDate := None;
               dateCreated := dateCreated t; completed := completed t |} in
  put_update st env id (Some b) =
    (replaceById oid t' st,
     Responded (res_json (Json_task_message (QDoc t') "Task updated successfully!"))) ∧
  findById oid (replaceById oid t' st) = Some t' ∧
  (post_todo st env (Some b)).1 = st.
Proof.
  intros Hc Hf Hup Ht Hd Hdue t'. split_and!.
  - rewrite put_update_eq, findByIdAndUpdate_cases, Hc, Ht, Hd, Hdue.
    change (update_details _ _ _) with (Ok (mkUpdate (Some (Some "")) (Some None) (Some None) None)).
    by rewrite Hup, Hf.
  - apply findById_replaceById_eq; [|by rewrite Hf].
    simpl. by apply findById_Some in Hf as [_ ?].
  - rewrite post_todo_missing_field; [done|]. left. right. right. exact Ht.
Qed.

(** X7: a completion request changes nothing but [completed].  Whatever the
    body, the task that either completion route returns for a stored task
    has the stored [_id], [title], [description], [dueDate] and
    [dateCreated]. *)
Theorem completion_changes_only_completed st env id oid t (b : ReqBody) st' t' msg :
  castObjectId id = Some oid → findById oid st = Some t →
  patch_complete st env id b =
    (st', Responded (res_json (Json_task_message (QDoc t') msg))) ∨
  patch_notComplete st env id b =
    (st', Responded (res_json (Json_task_message (QDoc t') msg))) →
  _id t' = _id t ∧ title t' = title t ∧ description t' = description t ∧
  dueDate t' = dueDate t ∧ dateCreated t' = dateCreated t.
Proof.
  intros Hc Hf. rewrite patch_complete_req, patch_notComplete_req.
  intros [H|H]; apply answer_task in H;
    apply (findByIdAndUpdate_QDoc _ _ _ _ _ _ _ _ Hc Hf) in H as (u & Hu & _ & -> & _);
    (destruct b as [b|]; [|done]);
    apply update_completed_Ok in Hu as (x & _ & ->); by split_and!.
Qed.

(** X11: a completion, update or delete request for one id leaves the tasks
    with every other id as they are, whatever the body and whether or not
    the request succeeds. *)
Theorem by_id_requests_leave_other_tasks st env id (b : ReqBody) oid' :
  castObjectId id ≠ Some oid' →
  findById oid' (patch_complete st env id b).1 = findById oid' st ∧
  findById oid' (patch_notComplete st env id b).1 = findById oid' st ∧
  findById oid' (put_update st env id b).1 = findById oid' st ∧
  findById oid' (delete_task st env id).1 = findById oid' st.
Proof.
  intros Hne.
  rewrite patch_complete_req, patch_notComplete_req, put_update_req, delete_task_eq,
    !answer_fst.
  split_and!.
  - destruct (Task_findByIdAndUpdate _ _ _ _) as [[st' v]|e] eqn:E; [|done].
    by apply (findByIdAndUpdate_other _ _ _ _ _ _ _ E).
  - destruct (Task_findByIdAndUpdate _ _ _ _) as [[st' v]|e] eqn:E; [|done].
    by apply (findByIdAndUpdate_other _ _ _ _ _ _ _ E).
  - destruct (Task_findByIdAndUpdate _ _ _ _) as [[st' v]|e] eqn:E; [|done].
    by apply (findByIdAndUpdate_other _ _ _ _ _ _ _ E).
  - unfold Task_findByIdAndDelete.
    destruct (castObjectId id) as [oid|]; [|done].
    destruct (storeUp env); [|done]. simpl.
    destruct (findById oid st) as [t|]; [|done].
    apply findById_removeById_ne. congruence.
Qed.

(** ** Requests in sequence *)

Lemma findByIdAndUpdate_again st env id r st' v :
  Task_findByIdAndUpdate st env id r = Ok (st', v) →
  Task_findByIdAndUpdate st' env id r = Ok (st', v).
Proof.
  rewrite !findByIdAndUpdate_cases.
  destruct (castObjectId id) as [oid|]; [|done].
  destruct r as [u|e]; [|done]. destruct (storeUp env); [|done].
  destruct (findById oid st) as [t|] eqn:Hf; intros [= <- <-].
  - destruct (update_is_empty u) eqn:Hu.
    + by rewrite Hf.
    + assert (_id (apply_update u t) = oid) as Hid
        by (simpl; by apply findById_Some in Hf as [_ ?]).
      rewrite findById_replaceById_eq; [|done | by rewrite Hf].
      by rewrite apply_update_idem, replaceById_twice.
  - by rewrite Hf.
Qed.

Lemma answer_Ok_store f m e st st0 st' v :
  answer f m e st (Ok (st', v)) = answer f m e st0 (Ok (st', v)).
Proof. by destruct v. Qed.

(** X10: the completion and update routes are idempotent.  Sending the same
    request a second time, in the same environment, leaves the store as the
    first request left it and gets the same answer. *)
Theorem completion_and_update_are_idempotent st env id (b : ReqBody) :
  patch_complete (patch_complete st env id b).1 env id b = patch_complete st env id b ∧
  patch_notComplete (patch_notComplete st env id b).1 env id b =
    patch_notComplete st env id b ∧
  put_update (put_update st env id b).1 env id b = put_update st env id b.
Proof.
  rewrite !patch_complete_req, !patch_notComplete_req, !put_update_req, !answer_fst.
  split_and!.
  - destruct (Task_findByIdAndUpdate st env id _) as [[st' v]|e] eqn:E.
    + rewrite (findByIdAndUpdate_again _ _ _ _ _ _ E). apply answer_Ok_store.
    + by rewrite E.
  - destruct (Task_findByIdAndUpdate st env id _) as [[st' v]|e] eqn:E.
    + rewrite (findByIdAndUpdate_again _ _ _ _ _ _ E). apply answer_Ok_store.
    + by rewrite E.
  - destruct (Task_findByIdAndUpdate st env id _) as [[st' v]|e] eqn:E.
    + rewrite (findByIdAndUpdate_again _ _ _ _ _ _ E). apply answer_Ok_store.
    + by rewrite E.
Qed.

(** X8: create followed by delete is a round trip.  Deleting the task that a
    create request has just stored, by the id it was given, returns that
    task and leaves the store as it was before the create. *)
Theorem delete_undoes_create st env (b : ReqBody) st' r env' id :
  post_todo st env b = (st', Responded r) →
  castObjectId id = Some (freshId env) → storeUp env' = true →
  ∃ t,
    r = res_json (Json_task_message (QDoc t) "Task created successfully") ∧
    delete_task st' env' id =
      (st, Responded (res_json (Json_task_message (QDoc t) "Task deleted successfully!"))).
Proof.
  intros H Hc Hup. destruct (post_todo_has_body _ _ _ _ _ H) as [b0 ->].
  apply post_todo_responded in H as (t & d & due & _ & _ & _ & _ & Hf & -> & ->).
  exists (created_task env t d due). split; [done|].
  rewrite delete_task_eq. unfold Task_findByIdAndDelete. rewrite Hc, Hup. simpl.
  rewrite (findById_app_fresh _ _ (created_task env t d due) Hf eq_refl).
  by rewrite (removeById_app_fresh _ _ (created_task env t d due) Hf eq_refl).
Qed.

(** X9: a second delete of the same id is answered 404.  When both queries
    run and ids are unique in the store, whatever the first delete request
    did, the same request again finds no task and changes nothing. *)
Theorem second_delete_is_not_found st env env' id oid :
  store_wf st → castObjectId id = Some oid →
  storeUp env = true → storeUp env' = true →
  delete_task (delete_task st env id).1 env' id =
    ((delete_task st env id).1, Not_found "Task not found!").
Proof.
  intros Hwf Hc Hup Hup'.
  assert (∀ s e, storeUp e = true →
            delete_task s e id =
              match findById oid s with
              | Some t =>
                  (removeById oid s,
                   Responded (res_json (Json_task_message (QDoc t)
                                          "Task deleted successfully!")))
              | None => (s, Not_found "Task not found!")
              end) as Hdel.
  { intros s e He. rewrite delete_task_eq. unfold Task_findByIdAndDelete.
    rewrite Hc, He. simpl. by destruct (findById oid s). }
  rewrite (Hdel st env Hup).
  destruct (findById oid st) as [t|] eqn:Hf; simpl; rewrite (Hdel _ env' Hup').
  - by rewrite (findById_removeById_eq _ _ Hwf).
  - by rewrite Hf.
Qed.

(** ** What a create request stores *)

(** X12: a create request never touches the tasks that are stored.  It
    leaves the store as it is or appends one task, and a task it appends has
    a title and a description that are non-empty strings, a due date, and
    [completed = false]. *)
Theorem create_appends_one_valid_task_or_nothing st env (b : ReqBody) :
  (post_todo st env b).1 = st ∨
  ∃ t ti de du,
    (post_todo st env b).1 = st ++ [t] ∧
    title t = Some ti ∧ ti ≠ "" ∧ description t = Some de ∧ de ≠ "" ∧
    dueDate t = Some du ∧ completed t = Some false.
Proof.
  destruct (post_todo_cases st env b)
    as [->|(o & ti & de & du & _ & Ht & Hd & _ & _ & _ & ->)]; [by left|].
  right. exists (created_task env ti de du), ti, de, du. simpl. split_and!; try done.
  - unfold required_string in Ht. destruct (o !! "title") as [v|]; [|done].
    destruct (castString v) as [[s|]|]; try done. case_bool_decide; congruence.
  - unfold required_string in Hd. destruct (o !! "description") as [v|]; [|done].
    destruct (castString v) as [[s|]|]; try done. case_bool_decide; congruence.
Qed.

(** ** Requests for different tasks *)

Lemma replaceById_comm o1 o2 a b st :
  o1 ≠ o2 → _id a = o1 → _id b = o2 →
  replaceById o1 a (replaceById o2 b st) = replaceById o2 b (replaceById o1 a st).
Proof.
  intros Hne Ha Hb. induction st as [|x st IH]; simpl; [done|].
  destruct (N.eqb_spec (_id x) o2) as [E2|E2], (N.eqb_spec (_id x) o1) as [E1|E1];
    simpl; try congruence.
  - rewrite Hb. destruct (N.eqb_spec o2 o1); [congruence|].
    apply N.eqb_neq in E1. by rewrite E2, N.eqb_refl.
  - rewrite Ha. destruct (N.eqb_spec o1 o2); [congruence|].
    by rewrite E1, N.eqb_refl.
  - apply N.eqb_neq in E1. apply N.eqb_neq in E2. by rewrite E1, E2, IH.
Qed.

Lemma replaceById_self oid t st :
  findById oid st = Some t → replaceById oid t st = st.
Proof.
  induction st as [|x st IH]; simpl; [done|].
  destruct (N.eqb (_id x) oid); [by intros [= ->] | intros H; by rewrite IH].
Qed.

Lemma findById_updateById_ne o1 o2 u st :
  o1 ≠ o2 → findById o1 (updateById o2 u st) = findById o1 st.
Proof.
  intros Hne. unfold updateById. destruct (findById o2 st) as [t|] eqn:Hf; [|done].
  apply findById_replaceById_ne; [|done]. simpl. by apply findById_Some in Hf as [_ ?].
Qed.

Lemma updateById_comm o1 o2 u1 u2 st :
  o1 ≠ o2 →
  updateById o1 u1 (updateById o2 u2 st) = updateById o2 u2 (updateById o1 u1 st).
Proof.
  intros Hne. unfold updateById at 1 3.
  rewrite !findById_updateById_ne by done.
  unfold updateById.
  destruct (findById o1 st) as [t1|] eqn:H1, (findById o2 st) as [t2|] eqn:H2; try done.
  apply replaceById_comm; [done | simpl..].
  - by apply findById_Some in H1 as [_ ?].
  - by apply findById_Some in H2 as [_ ?].
Qed.

Lemma findByIdAndUpdate_up st env id oid u :
  castObjectId id = Some oid → storeUp env = true →
  Task_findByIdAndUpdate st env id (Ok u) =
    Ok (updateById oid u st, of_option (apply_update u <$> findById oid st)).
Proof.
  intros Hc Hup. rewrite findByIdAndUpdate_cases, Hc, Hup. unfold updateById.
  destruct (findById oid st) as [t|] eqn:Hf; simpl; [|done].
  destruct (update_is_empty u) eqn:Hu; [|done].
  by rewrite (apply_update_empty _ _ Hu), (replaceById_self _ _ _ Hf).
Qed.

(** X15: update requests for different tasks do not interfere.  For two
    well-formed ids that differ, the store after both requests is the same
    in either order, and the answer to each request is the answer it would
    get if the other had not been sent. *)
Theorem updates_of_different_tasks_commute st env1 env2 id1 id2 o1 o2 (b1 b2 : ReqBody) :
  castObjectId id1 = Some o1 → castObjectId id2 = Some o2 → o1 ≠ o2 →
  (put_update (put_update st env1 id1 b1).1 env2 id2 b2).1 =
    (put_update (put_update st env2 id2 b2).1 env1 id1 b1).1 ∧
  (put_update (put_update st env1 id1 b1).1 env2 id2 b2).2 =
    (put_update st env2 id2 b2).2 ∧
  (put_update (put_update st env2 id2 b2).1 env1 id1 b1).2 =
    (put_update st env1 id1 b1).2.
Proof.
  intros Hc1 Hc2 Hne.
  assert (∀ s env id oid (b : ReqBody), castObjectId id = Some oid →
            put_update s env id b =
              match details_update b with
              | Ok u =>
                  if storeUp env
                  then answer "Task updated successfully!" "Task not found!"
                         "Error updating the task!" s
                         (Ok (updateById oid u s,
                              of_option (apply_update u <$> findById oid s)))
                  else (s, Failed "Error updating the task!")
              | Throw _ => (s, Failed "Error updating the task!")
              end) as Hput.
  { intros s env id oid b Hc. rewrite put_update_req.
    destruct (details_update b) as [u|e].
    - destruct (storeUp env) eqn:Hup.
      + by rewrite (findByIdAndUpdate_up _ _ _ _ _ Hc Hup).
      + by rewrite findByIdAndUpdate_cases, Hc, Hup.
    - by rewrite findByIdAndUpdate_cases, Hc. }
  rewrite (Hput st env1 id1 o1 b1 Hc1), (Hput st env2 id2 o2 b2 Hc2).
  destruct (details_update b1) as [u1|e1] eqn:E1,
           (details_update b2) as [u2|e2] eqn:E2,
           (storeUp env1) eqn:Hup1, (storeUp env2) eqn:Hup2;
    rewrite ?answer_fst; simpl;
    rewrite ?(Hput _ env1 id1 o1 b1 Hc1), ?(Hput _ env2 id2 o2 b2 Hc2),
      ?E1, ?E2, ?Hup1, ?Hup2, ?answer_fst; simpl;
    rewrite ?findById_updateById_ne by congruence;
    split_and!; try done.
  - by apply updateById_comm.
  - unfold answer. by destruct (of_option _).
  - unfold answer. by destruct (of_option _).
Qed.

(** ** Invariants of the service *)

Lemma handle_stamp st env r t' :
  t' ∈ (handle st env r).1 →
  (∃ t, t ∈ st ∧ _id t = _id t' ∧ dateCreated t = dateCreated t') ∨
  (∃ b, r = PostTodo b ∧ _id t' = freshId env ∧ dateCreated t' = now env).
Proof.
  assert (∀ id u st' v, Task_findByIdAndUpdate st env id u = Ok (st', v) → t' ∈ st' →
            ∃ t, t ∈ st ∧ _id t = _id t' ∧ dateCreated t = dateCreated t') as Hupd.
  { intros id u st' v. rewrite findByIdAndUpdate_cases.
    destruct (castObjectId id) as [oid|]; [|done].
    destruct u as [u|e]; [|done]. destruct (storeUp env); [|done].
    destruct (findById oid st) as [t|] eqn:Hf; intros [= <- <-] Hin; [|by exists t'].
    destruct (update_is_empty u); [by exists t'|].
    apply elem_of_replaceById in Hin as [Hin| ->]; [by exists t'|].
    exists t. by apply findById_Some in Hf as [? _]. }
  destruct r as [sortBy|b|id b|id b|id|id b]; simpl.
  - rewrite get_tasks_eq. destruct (storeUp env); simpl; intros Hin; left; by exists t'.
  - destruct (post_todo_cases st env b)
      as [->|(b0 & ti & de & du & -> & _ & _ & _ & _ & _ & ->)]; simpl;
      [intros Hin; left; by exists t'|].
    intros Hin. apply elem_of_app in Hin as [Hin|Hin]; [left; by exists t'|].
    apply list_elem_of_singleton in Hin. subst t'. right. by exists (Some b0).
  - rewrite patch_complete_req, answer_fst.
    destruct (Task_findByIdAndUpdate _ _ _ _) as [[st' v]|e] eqn:E;
      intros Hin; left; [by eapply Hupd | by exists t'].
  - rewrite patch_notComplete_req, answer_fst.
    destruct (Task_findByIdAndUpdate _ _ _ _) as [[st' v]|e] eqn:E;
      intros Hin; left; [by eapply Hupd | by exists t'].
  - rewrite delete_task_eq, answer_fst. unfold Task_findByIdAndDelete.
    destruct (castObjectId id) as [oid|]; [|intros Hin; left; by exists t'].
    destruct (storeUp env); simpl; [|intros Hin; left; by exists t'].
    destruct (findById oid st) as [t|]; intros Hin; left; exists t'; [|done].
    split; [by eapply elem_of_removeById | done].
  - rewrite put_update_req, answer_fst.
    destruct (Task_findByIdAndUpdate _ _ _ _) as [[st' v]|e] eqn:E;
      intros Hin; left; [by eapply Hupd | by exists t'].
Qed.

(** X6: no request rewrites an id or a creation time.  After any sequence of
    requests, each task in the store either was in the store at the start
    with the same [_id] and the same [dateCreated], or was stored by a
    create request of the sequence with the id generated for that request
    and the time of that request. *)
Theorem ids_and_creation_times_are_never_rewritten st rs t' :
  t' ∈ run st rs →
  (∃ t, t ∈ st ∧ _id t = _id t' ∧ dateCreated t = dateCreated t') ∨
  (∃ env b, (env, PostTodo b) ∈ rs ∧ _id t' = freshId env ∧ dateCreated t' = now env).
Proof.
  revert st. induction rs as [|[env r] rs IH]; intros st; simpl.
  - intros Hin. left. by exists t'.
  - intros Hin. apply IH in Hin as [(t & Hin & Hid & Hdc)|(env' & b & Hin & ? & ?)].
    + apply handle_stamp in Hin as [(t0 & ? & ? & ?)|(b & -> & ? & ?)].
      * left. exists t0. split_and!; [done | congruence..].
      * right. exists env, b. split_and!; [left | congruence..].
    + right. exists env', b. split_and!; [by right | done..].
Qed.

(** X13: in every store that the service reaches from the empty collection,
    whatever ids the generator returns, no two tasks have the same id, and
    every stored task is the one that a lookup of its id finds. *)
Theorem reachable_store_tasks_are_found_by_id rs t :
  t ∈ run [] rs →
  store_wf (run [] rs) ∧ findById (_id t) (run [] rs) = Some t.
Proof.
  intros Hin. pose proof (reachable_wf rs) as Hwf.
  split; [done | by apply findById_elem].
Qed.

(** X14: only a delete request removes a task, and only the task whose id it
    names: if an id is in the store before a request and not after it, the
    request is a delete request for that id. *)
Theorem only_delete_removes_a_task st env r oid :
  oid ∈ ids st → oid ∉ ids (handle st env r).1 →
  ∃ id, r = DeleteTask id ∧ castObjectId id = Some oid.
Proof.
  intros Hin Hout.
  destruct r as [sortBy|b|id b|id b|id|id b]; simpl in Hout.
  - exfalso. apply Hout. rewrite get_tasks_eq. by destruct (storeUp env).
  - exfalso. apply Hout. destruct (post_todo_cases st env b)
      as [->|(b0 & ti & de & du & _ & _ & _ & _ & _ & _ & ->)]; simpl; [done|].
    unfold ids. rewrite fmap_app. apply elem_of_app. by left.
  - exfalso. apply Hout. rewrite patch_complete_req, answer_fst.
    destruct (Task_findByIdAndUpdate _ _ _ _) as [[st' v]|e] eqn:E; [|done].
    by rewrite (findByIdAndUpdate_ids _ _ _ _ _ _ E).
  - exfalso. apply Hout. rewrite patch_notComplete_req, answer_fst.
    destruct (Task_findByIdAndUpdate _ _ _ _) as [[st' v]|e] eqn:E; [|done].
    by rewrite (findByIdAndUpdate_ids _ _ _ _ _ _ E).
  - exists id. split; [done|].
    destruct (castObjectId id) as [oid0|] eqn:Hc.
    + destruct (decide (oid0 = oid)) as [->|Hne]; [done|].
      exfalso. apply Hout. rewrite delete_task_eq, answer_fst.
      unfold Task_findByIdAndDelete. rewrite Hc.
      destruct (storeUp env); simpl; [|done].
      destruct (findById oid0 st) as [t|]; [|done].
      apply findById_is_Some. rewrite findById_removeById_ne; [|done].
      by apply findById_is_Some.
    + exfalso. apply Hout. rewrite delete_task_eq, answer_fst.
      unfold Task_findByIdAndDelete. by rewrite Hc.
  - exfalso. apply Hout. rewrite put_update_req, answer_fst.
    destruct (Task_findByIdAndUpdate _ _ _ _) as [[st' v]|e] eqn:E; [|done].
    by rewrite (findByIdAndUpdate_ids _ _ _ _ _ _ E).
Qed.

End MoreProperties.

(** ** The further properties at concrete requests *)

Lemma list_reads_the_whole_collection_witness :
  get_tasks [task_new; task_A] env_up (Some "title") =
    ([task_new; task_A], Responded (res_json (Json_value (QDocs [task_new; task_A])))) ∧
  get_tasks [task_new; task_A] env_up None =
    ([task_new; task_A], Responded (res_json (Json_value (QDocs [task_new; task_A])))).
Proof.
  split.
  - apply (list_reads_the_whole_collection [task_new; task_A] env_up (Some "title"));
      [discriminate | discriminate | reflexivity].
  - apply (list_reads_the_whole_collection [task_new; task_A] env_up None);
      [discriminate | discriminate | reflexivity].
Defined.

Lemma store_down_changes_nothing_witness :
  storeUp env_down = false ∧
  delete_task [task_A] env_down id_A = ([task_A], Failed "Error deleting the task!") ∧
  post_todo (RT:=sample_runtime) [task_A] env_down (Some body_ABC) =
    ([task_A], Rejected (ReferenceError "err")).
Proof.
  split; [reflexivity|].
  destruct (store_down_changes_nothing (RT:=sample_runtime) [task_A] env_down eq_refl)
    as (_ & _ & _ & Hd & _ & Hp).
  split; [apply Hd | apply Hp].
Defined.

Lemma every_answer_is_200_404_or_500_witness :
  status_of (handle (RT:=sample_runtime) [task_A] env_up (DeleteTask id_new)).2 = Some 404 ∧
  ∃ id, DeleteTask id_new = DeleteTask id ∨
        ∃ b, DeleteTask id_new = PatchComplete id b ∨
             DeleteTask id_new = PatchNotComplete id b ∨
             DeleteTask id_new = PutUpdate id b.
Proof.
  split; [vm_compute; reflexivity|].
  apply (every_answer_is_200_404_or_500 (RT:=sample_runtime)
           [task_A] env_up (DeleteTask id_new)).
  vm_compute. reflexivity.
Defined.

Lemma update_keeps_fields_missing_from_body_witness :
  put_update (RT:=sample_runtime) [task_A] env_up id_A (Some body_title_only) =
    ([ {| _id := 1; title := Some "Z"; description := Some "B";
          dueDate := Some 1735689600000; dateCreated := 1000;
          completed := Some false |} ],
     Responded (res_json (Json_task_message
       (QDoc {| _id := 1; title := Some "Z"; description := Some "B";
                dueDate := Some 1735689600000; dateCreated := 1000;
                completed := Some false |})
       "Task updated successfully!"))) ∧
  body_title_only !! "description" = None ∧
  description {| _id := 1; title := Some "Z"; description := Some "B";
                 dueDate := Some 1735689600000; dateCreated := 1000;
                 completed := Some false |} = description task_A.
Proof.
  assert (put_update (RT:=sample_runtime) [task_A] env_up id_A (Some body_title_only) =
    ([ {| _id := 1; title := Some "Z"; description := Some "B";
          dueDate := Some 1735689600000; dateCreated := 1000;
          completed := Some false |} ],
     Responded (res_json (Json_task_message
       (QDoc {| _id := 1; title := Some "Z"; description := Some "B";
                dueDate := Some 1735689600000; dateCreated := 1000;
                completed := Some false |})
       "Task updated successfully!")))) as E by (vm_compute; reflexivity).
  split; [exact E|]. split; [vm_compute; reflexivity|].
  destruct (update_keeps_fields_missing_from_body (RT:=sample_runtime)
              [task_A] env_up id_A 1%N task_A body_title_only _ _ _
              eq_refl eq_refl E) as (_ & H & _).
  apply H. vm_compute. reflexivity.
Defined.

Lemma update_accepts_what_create_refuses_witness :
  put_update (RT:=sample_runtime) [task_A] env_up id_A (Some body_blank) =
    ([ {| _id := 1; title := Some ""; description := None; dueDate := None;
          dateCreated := 1000; completed := Some false |} ],
     Responded (res_json (Json_task_message
       (QDoc {| _id := 1; title := Some ""; description := None; dueDate := None;
                dateCreated := 1000; completed := Some false |})
       "Task updated successfully!"))) ∧
  (post_todo (RT:=sample_runtime) [task_A] env_up (Some body_blank)).1 = [task_A].
Proof.
  destruct (update_accepts_what_create_refuses (RT:=sample_runtime)
              [task_A] env_up id_A 1%N task_A body_blank
              eq_refl eq_refl eq_refl eq_refl eq_refl eq_refl) as (E & _ & P).
  split; [exact E | exact P].
Defined.

Lemma ids_and_creation_times_are_never_rewritten_witness :
  let rs := [(env_new, PostTodo (Some body_ABC)); (env_up, PutUpdate id_A (Some body_XYZ));
             (env_up, PatchComplete id_new (Some body_done))] in
  let t' := {| _id := 2; title := Some "A"; description := Some "B";
               dueDate := Some 1735689600000; dateCreated := 2000;
               completed := Some true |} in
  t' ∈ run (RT:=sample_runtime) [task_A] rs ∧
  ((∃ t, t ∈ [task_A] ∧ _id t = _id t' ∧ dateCreated t = dateCreated t') ∨
   (∃ env b, (env, PostTodo b) ∈ rs ∧ _id t' = freshId env ∧ dateCreated t' = now env)).
Proof.
  intros rs t'.
  assert (t' ∈ run (RT:=sample_runtime) [task_A] rs) as Hin.
  { change (run (RT:=sample_runtime) [task_A] rs)
      with [ {| _id := 1; title := Some "X"; description := Some "Y";
                dueDate := Some 1738368000000; dateCreated := 1000;
                completed := Some false |}; t' ].
    right. left. }
  split; [exact Hin|].
  exact (ids_and_creation_times_are_never_rewritten (RT:=sample_runtime)
           [task_A] rs t' Hin).
Defined.

Lemma completion_changes_only_completed_witness :
  patch_complete [task_A] env_up id_A (Some body_done) =
    ([task_A_done],
     Responded (res_json (Json_task_message (QDoc task_A_done) "Task set to 'complete."))) ∧
  title task_A_done = title task_A ∧ dueDate task_A_done = dueDate task_A.
Proof.
  assert (patch_complete [task_A] env_up id_A (Some body_done) =
    ([task_A_done],
     Responded (res_json (Json_task_message (QDoc task_A_done) "Task set to 'complete."))))
    as E by (vm_compute; reflexivity).
  split; [exact E|].
  destruct (completion_changes_only_completed [task_A] env_up id_A 1%N task_A (Some body_done)
              _ _ _ eq_refl eq_refl (or_introl E)) as (_ & H1 & _ & H2 & _).
  split; [exact H1 | exact H2].
Defined.

Lemma delete_undoes_create_witness :
  ∃ t,
    res_json (Json_task_message (QDoc task_new) "Task created successfully") =
      res_json (Json_task_message (QDoc t) "Task created successfully") ∧
    delete_task [task_A; task_new] env_up id_new =
      ([task_A],
       Responded (res_json (Json_task_message (QDoc t) "Task deleted successfully!"))).
Proof.
  exact (delete_undoes_create (RT:=sample_runtime) [task_A] env_new (Some body_ABC)
           [task_A; task_new]
           (res_json (Json_task_message (QDoc task_new) "Task created successfully"))
           env_up id_new eq_refl eq_refl eq_refl).
Defined.

Lemma second_delete_is_not_found_witness :
  delete_task (delete_task [task_A; task_new] env_up id_A).1 env_up id_A =
    ((delete_task [task_A; task_new] env_up id_A).1, Not_found "Task not found!").
Proof.
  assert (store_wf [task_A; task_new]) as Hwf by wf_by_computation.
  exact (second_delete_is_not_found [task_A; task_new] env_up env_up id_A 1%N
           Hwf eq_refl eq_refl eq_refl).
Defined.

Lemma by_id_requests_leave_other_tasks_witness :
  findById 2 (put_update (RT:=sample_runtime) [task_A; task_new] env_up id_A (Some body_XYZ)).1 =
    Some task_new ∧
  findById 2 (delete_task [task_A; task_new] env_up id_A).1 = Some task_new.
Proof.
  assert (castObjectId id_A ≠ Some 2%N) as Hne by (vm_compute; discriminate).
  destruct (by_id_requests_leave_other_tasks (RT:=sample_runtime)
              [task_A; task_new] env_up id_A (Some body_XYZ) 2%N Hne) as (_ & _ & Hu & Hd).
  split; [exact Hu | exact Hd].
Defined.

Lemma reachable_store_tasks_are_found_by_id_witness :
  let rs := [(env_first, PostTodo (Some body_ABC)); (env_new, PostTodo (Some body_ABC));
             (env_up, PatchComplete id_A (Some body_done))] in
  task_new ∈ run (RT:=sample_runtime) [] rs ∧
  findById 2 (run (RT:=sample_runtime) [] rs) = Some task_new.
Proof.
  intros rs.
  assert (task_new ∈ run (RT:=sample_runtime) [] rs) as Hin.
  { change (run (RT:=sample_runtime) [] rs) with [task_A_done; task_new]. right. left. }
  split; [exact Hin|].
  exact (proj2 (reachable_store_tasks_are_found_by_id (RT:=sample_runtime) rs task_new Hin)).
Defined.

Lemma only_delete_removes_a_task_witness :
  ∃ id, DeleteTask id_A = DeleteTask id ∧ castObjectId id = Some 1%N.
Proof.
  apply (only_delete_removes_a_task (RT:=sample_runtime)
           [task_A; task_new] env_up (DeleteTask id_A) 1%N).
  - left.
  - change (1%N ∉ [2%N]). intros H. apply list_elem_of_singleton in H. discriminate H.
Defined.

Lemma updates_of_different_tasks_commute_witness :
  (put_update (RT:=sample_runtime)
     (put_update (RT:=sample_runtime) [task_A; task_new] env_up id_A (Some body_XYZ)).1
     env_up id_new (Some body_title_only)).1 =
  (put_update (RT:=sample_runtime)
     (put_update (RT:=sample_runtime) [task_A; task_new] env_up id_new (Some body_title_only)).1
     env_up id_A (Some body_XYZ)).1.
Proof.
  assert (1%N ≠ 2%N) as Hne by discriminate.
  exact (proj1 (updates_of_different_tasks_commute (RT:=sample_runtime)
                  [task_A; task_new] env_up env_up id_A id_new 1%N 2%N
                  (Some body_XYZ) (Some body_title_only) eq_refl eq_refl Hne)).
Defined.
